(** * solana-copy-bot: the transaction interpretation pipeline

    A shallow embedding of [token-utils.ts] (the Metaplex metadata decoder and
    the cached metadata resolver) and of [tx-handler.ts] (the balance-change
    computation and the transaction processor), followed by the properties of
    the specification that concern them.

    Conventions of the embedding:
    - a JavaScript [number] that carries an amount is a binary64 float
      ([PrimFloat.float]); byte values, lengths and offsets are exact integers;
    - a [Buffer] is a list of bytes;
    - a JavaScript string produced by decoding is a list of code points (the
      operations used on it, removing U+0000 and [trim], act the same on code
      points as on UTF-16 code units); addresses, which are base58 text and are
      only compared, are [string]s;
    - an [async] function is a state transformer over the [World] (the shared
      cache, the console, the count of collaborator calls) that either returns
      or throws. *)

From Stdlib Require Import ZArith NArith List Floats Lia.
From Stdlib Require Uint63.
From Stdlib.Strings Require Import Byte.
From stdpp Require Import base option list strings gmap.


(* ================================================================== *)
(** * JavaScript values and control flow *)

(** The exceptions the modelled code can meet. *)
Inductive JsError : Type :=
| RangeError                 (* Buffer read out of bounds; toFixed digits out of range *)
| InvalidPublicKey           (* new PublicKey(...) on a malformed address *)
| DerivationError            (* findProgramAddress found no viable bump seed *)
| RpcError (code : Z).       (* a rejected collaborator call *)

(** The result of evaluating an expression that may throw. *)
Inductive Outcome (A : Type) : Type :=
| Returned (a : A)
| Thrown (e : JsError).
Arguments Returned {A} a.
Arguments Thrown {A} e.

#[global] Instance Outcome_ret : MRet Outcome := fun A a => Returned a.
#[global] Instance Outcome_bind : MBind Outcome := fun A B f m =>
  match m with
  | Returned a => f a
  | Thrown e => Thrown e
  end.

Abbreviation Buffer := (list byte).
Abbreviation JsString := (list N).

(** A string literal of the source, as code points. *)
Definition js (s : string) : JsString :=
  map (fun a => Ascii.N_of_ascii a) (String.list_ascii_of_string s).

(* ================================================================== *)
(** * Platform primitives on buffers and strings *)

(** [l.slice(n)] and [l.slice(0, n)] on lists, with positions in [N]. *)
Fixpoint dropN {A : Type} (n : N) (l : list A) : list A :=
  match l with
  | [] => []
  | _ :: l' => if (n =? 0)%N then l else dropN (N.pred n) l'
  end.

Fixpoint takeN {A : Type} (n : N) (l : list A) : list A :=
  match l with
  | [] => []
  | x :: l' => if (n =? 0)%N then [] else x :: takeN (N.pred n) l'
  end.

(** [buf.slice(start, end)]: both positions are clamped to the buffer, and an
    empty range gives an empty buffer; it never throws. *)
Definition bufferSlice (data : Buffer) (start stop : N) : Buffer :=
  takeN (stop - start) (dropN start data).

(** [buf.readUInt32LE(offset)]: throws unless four bytes are there. *)
Definition readUInt32LE (data : Buffer) (offset : N) : Outcome N :=
  match dropN offset data with
  | b0 :: b1 :: b2 :: b3 :: _ =>
      Returned (Byte.to_N b0 + Byte.to_N b1 * 2 ^ 8
                + Byte.to_N b2 * 2 ^ 16 + Byte.to_N b3 * 2 ^ 24)%N
  | _ => Thrown RangeError
  end.

(** [buf.readUInt8(offset)]. *)
Definition readUInt8 (data : Buffer) (offset : N) : Outcome N :=
  match dropN offset data with
  | b :: _ => Returned (Byte.to_N b)
  | [] => Thrown RangeError
  end.

(** [buf.toString("utf8")]: the decoder of the Encoding standard. A malformed
    sequence becomes U+FFFD and decoding resumes at the offending byte; a
    byte-order mark is kept. *)
Module Utf8.

Record state : Type := mkState {
  code_point : N;
  bytes_seen : N;
  bytes_needed : N;
  lower_boundary : N;
  upper_boundary : N
}.

Definition init : state := mkState 0 0 0 0x80 0xBF.

Definition REPLACEMENT : N := 0xFFFD.

Definition between (lo hi b : N) : bool := ((lo <=? b) && (b <=? hi))%N.

(** A byte met when no sequence is open. *)
Definition lead (b : N) : list N * state :=
  if (b <=? 0x7F)%N then ([b], init)
  else if between 0xC2 0xDF b then
    ([], mkState (N.land b 0x1F) 0 1 0x80 0xBF)
  else if between 0xE0 0xEF b then
    ([], mkState (N.land b 0xF) 0 2
           (if (b =? 0xE0)%N then 0xA0 else 0x80)
           (if (b =? 0xED)%N then 0x9F else 0xBF))
  else if between 0xF0 0xF4 b then
    ([], mkState (N.land b 0x7) 0 3
           (if (b =? 0xF0)%N then 0x90 else 0x80)
           (if (b =? 0xF4)%N then 0x8F else 0xBF))
  else ([REPLACEMENT], init).

Definition step (st : state) (b : N) : list N * state :=
  if (bytes_needed st =? 0)%N then lead b
  else if between (lower_boundary st) (upper_boundary st) b then
    let cp := N.lor (N.shiftl (code_point st) 6) (N.land b 0x3F) in
    if (bytes_seen st + 1 =? bytes_needed st)%N then ([cp], init)
    else ([], mkState cp (bytes_seen st + 1) (bytes_needed st) 0x80 0xBF)
  else
    let '(out, st') := lead b in (REPLACEMENT :: out, st').

Fixpoint run (st : state) (bytes : Buffer) : JsString :=
  match bytes with
  | [] => if (bytes_needed st =? 0)%N then [] else [REPLACEMENT]
  | b :: rest =>
      let '(out, st') := step st (Byte.to_N b) in out ++ run st' rest
  end.

Definition decode (bytes : Buffer) : JsString := run init bytes.

End Utf8.

(** [s.replace(/\0/g, "")]: every U+0000 goes, wherever it stands. *)
Definition removeNul (s : JsString) : JsString :=
  filter (fun c => c ≠ 0%N) s.

(** The code points [String.prototype.trim] removes: white space and line
    terminators. *)
Definition isWhiteSpace (c : N) : bool :=
  (Utf8.between 0x09 0x0D c || (c =? 0x20) || (c =? 0xA0) || (c =? 0x1680)
   || Utf8.between 0x2000 0x200A c || (c =? 0x2028) || (c =? 0x2029)
   || (c =? 0x202F) || (c =? 0x205F) || (c =? 0x3000) || (c =? 0xFEFF))%N.

Fixpoint trimStart (s : JsString) : JsString :=
  match s with
  | [] => []
  | c :: s' => if isWhiteSpace c then trimStart s' else s
  end.

Definition trimEnd (s : JsString) : JsString := rev (trimStart (rev s)).

Definition trim (s : JsString) : JsString := trimEnd (trimStart s).

(* ================================================================== *)
(** * token-utils.ts: the Metaplex metadata decoder *)

Record NameAndSymbol : Type := mkNameAndSymbol {
  decoded_name : JsString;
  decoded_symbol : JsString
}.

Definition decodeMetaplexMetadata (data : Buffer) : Outcome NameAndSymbol :=
  let offset := (1 + 32 + 32)%N in
  nameLength ← readUInt32LE data offset;
  let offset := (offset + 4)%N in
  let name :=
    removeNul (Utf8.decode (bufferSlice data offset (offset + nameLength))) in
  let offset := (offset + nameLength)%N in
  symbolLength ← readUInt32LE data offset;
  let offset := (offset + 4)%N in
  let symbol :=
    removeNul (Utf8.decode (bufferSlice data offset (offset + symbolLength))) in
  mret (mkNameAndSymbol name symbol).

(* ================================================================== *)
(** * The world an [async] function runs in *)

Record TokenMetadata : Type := mkTokenMetadata {
  name : JsString;
  symbol : JsString;
  decimals : N
}.

Inductive Action : Type := Bought | Sold.

(** The text [x.toFixed(digits)] renders, kept as its two arguments. *)
Record FixedText : Type := mkFixedText {
  fixed_value : float;
  fixed_digits : N
}.

(** What the code writes to the console, one constructor per call site. *)
Inductive ConsoleLine : Type :=
| ErrorFetchingMetaplexMetadata (mintAddress : string) (error : JsError)
    (* console.error(`Error fetching Metaplex metadata for token: ${mintAddress}`, error) *)
| ErrorTransactionMetaNotAvailable
    (* console.error("Transaction meta not available.") *)
| ErrorTransactionNotFound (signature : string)
    (* console.error("Transaction not found:", signature) *)
| LogProcessingTransaction
    (* console.log("Processing transaction for trades...") *)
| LogSol (action : Action) (amount : FixedText)
    (* console.log(`Token: SOL, ${action}: ${amount} SOL`) *)
| LogToken (tokenName : JsString) (mint : string) (action : Action)
           (amount : FixedText) (tokenSymbol : JsString)
    (* console.log(`Token: ${name} (${mint}), ${action}: ${amount} ${symbol}`) *)
| LogBlank.
    (* console.log("\n") *)

(** The shared [Map] the caller passes by reference, the console, and how
    many calls each collaborator method has received. *)
Record World : Type := mkWorld {
  tokenMetadataCache : gmap string TokenMetadata;
  console : list ConsoleLine;
  accountFetches : nat;
  transactionFetches : nat
}.

Definition Task (A : Type) : Type := World → Outcome A * World.

#[global] Instance Task_ret : MRet Task := fun A a w => (Returned a, w).
#[global] Instance Task_bind : MBind Task := fun A B f m w =>
  match m w with
  | (Returned a, w') => f a w'
  | (Thrown e, w') => (Thrown e, w')
  end.

(** An expression that may throw, evaluated inside an [async] function. *)
Definition lift {A : Type} (o : Outcome A) : Task A := fun w => (o, w).

(** [try { body } catch (error) { handler }]. *)
Definition tryCatch {A : Type} (body : Task A) (handler : JsError → Task A)
  : Task A := fun w =>
  match body w with
  | (Returned a, w') => (Returned a, w')
  | (Thrown e, w') => handler e w'
  end.

Definition consoleWrite (line : ConsoleLine) : Task unit := fun w =>
  (Returned tt,
   mkWorld (tokenMetadataCache w) (console w ++ [line])
           (accountFetches w) (transactionFetches w)).

(** [tokenMetadataCache.set(key, value)]. *)
Definition cacheSet (key : string) (value : TokenMetadata) : Task unit :=
  fun w =>
  (Returned tt,
   mkWorld (<[key := value]> (tokenMetadataCache w)) (console w)
           (accountFetches w) (transactionFetches w)).

(** [value.toFixed(digits)]: a RangeError unless [0 <= digits <= 100]. *)
Definition toFixed (value : float) (digits : N) : Outcome FixedText :=
  if (digits <=? 100)%N then Returned (mkFixedText value digits)
  else Thrown RangeError.

(* ================================================================== *)
(** * Records of @solana/web3.js, with the fields the code reads *)

Record AccountInfo : Type := mkAccountInfo { data : Buffer }.

Record TokenAmount : Type := mkTokenAmount {
  uiAmount : option float            (* number | null *)
}.

Record TokenBalance : Type := mkTokenBalance {
  accountIndex : Z;
  mint : string;
  owner : option string;             (* owner?: string *)
  uiTokenAmount : TokenAmount
}.

Record ParsedTransactionMeta : Type := mkMeta {
  preBalances : list float;
  postBalances : list float;
  preTokenBalances : option (list TokenBalance);   (* Array | null | undefined *)
  postTokenBalances : option (list TokenBalance)
}.

Record ParsedTransactionWithMeta : Type := mkTx {
  meta : option ParsedTransactionMeta               (* ParsedTransactionMeta | null *)
}.

(** The platform's key type and its pure primitives. [newPublicKey] throws on
    text that is not a key; [findProgramAddress] returns the derived address
    with its bump seed; [METAPLEX_METADATA_PROGRAM] is the key of the address
    metaqbxxUerdq28cj1RbAWkYQm3ybzjb6a8bt518x1s. *)
Class Platform : Type := {
  PublicKey : Type;
  newPublicKey : string → Outcome PublicKey;
  toBuffer : PublicKey → Buffer;
  findProgramAddress : list Buffer → PublicKey → Outcome (PublicKey * N);
  METAPLEX_METADATA_PROGRAM : PublicKey
}.

(** The RPC collaborator. An answer may depend on how many calls the method
    has already received, so that the store may change between two calls; an
    answer is a value, [null] ([None]) or a rejection. *)
Record Connection `{Platform} : Type := mkConnection {
  getAccountInfo : nat → PublicKey → Outcome (option AccountInfo);
  getParsedTransaction : nat → string → Outcome (option ParsedTransactionWithMeta)
}.

Section Program.
Context `{Platform}.

(** [await connection.getAccountInfo(address)]: the call is counted, then its
    answer is returned or thrown. *)
Definition awaitGetAccountInfo (connection : Connection) (address : PublicKey)
  : Task (option AccountInfo) := fun w =>
  (getAccountInfo connection (accountFetches w) address,
   mkWorld (tokenMetadataCache w) (console w)
           (S (accountFetches w)) (transactionFetches w)).

(** [await connection.getParsedTransaction(signature, {...})]; the options
    (confirmed commitment, version 0 supported) are fixed and are part of the
    collaborator's answer. *)
Definition awaitGetParsedTransaction (connection : Connection)
    (signature : string) : Task (option ParsedTransactionWithMeta) := fun w =>
  (getParsedTransaction connection (transactionFetches w) signature,
   mkWorld (tokenMetadataCache w) (console w)
           (accountFetches w) (S (transactionFetches w))).

(* ---------------------------------------------------------------- *)
(** ** token-utils.ts: the metadata resolver *)

Definition fetchMintDecimals (connection : Connection)
    (mintPublicKey : PublicKey) : Task N :=
  accountInfo ← awaitGetAccountInfo connection mintPublicKey;
  match accountInfo with
  | Some info => lift (readUInt8 (data info) 44)
  | None => mret 0%N
  end.

Definition UNKNOWN_TOKEN : TokenMetadata :=
  mkTokenMetadata (js "Unknown") (js "UNKNOWN") 0.

(** The body of the [try] block: [Some tokenData] when it returns from the
    function, [None] when control falls out of the block. *)
Definition resolveFromChain (connection : Connection) (mintAddress : string)
  : Task (option TokenMetadata) :=
  mintPublicKey ← lift (newPublicKey mintAddress);
  derived ← lift (findProgramAddress
                    [String.list_byte_of_string "metadata";
                     toBuffer METAPLEX_METADATA_PROGRAM;
                     toBuffer mintPublicKey]
                    METAPLEX_METADATA_PROGRAM);
  let metadataPDA := fst derived in
  accountInfo ← awaitGetAccountInfo connection metadataPDA;
  match accountInfo with
  | Some info =>
      metadata ← lift (decodeMetaplexMetadata (data info));
      decimals ← fetchMintDecimals connection mintPublicKey;
      let tokenData :=
        mkTokenMetadata (trim (decoded_name metadata))
                        (trim (decoded_symbol metadata)) decimals in
      _ ← cacheSet mintAddress tokenData;
      mret (Some tokenData)
  | None => mret None
  end.

(** The third parameter of the source, [tokenMetadataCache], is the [Map] the
    caller shares with every call: it is the cache of the world. *)
Definition fetchTokenNameAndDecimals (connection : Connection)
    (mintAddress : string) : Task TokenMetadata := fun w =>
  match tokenMetadataCache w !! mintAddress with
  | Some cached => (Returned cached, w)
  | None =>
      (result ← tryCatch (resolveFromChain connection mintAddress)
                  (fun error =>
                     _ ← consoleWrite
                           (ErrorFetchingMetaplexMetadata mintAddress error);
                     mret None);
       match result with
       | Some tokenData => mret tokenData
       | None => mret UNKNOWN_TOKEN
       end) w
  end.

(* ---------------------------------------------------------------- *)
(** ** tx-handler.ts: balance changes of the tracked wallet *)

(** [balances[0]] used as a number: a missing element is [undefined], which
    the division turns into NaN. *)
Definition firstBalance (balances : list float) : float :=
  match balances with
  | b :: _ => b
  | [] => nan
  end.

Definition solBalanceChange (m : ParsedTransactionMeta) : float :=
  let preSolBalance := (firstBalance (preBalances m) / 1e9)%float in
  let postSolBalance := (firstBalance (postBalances m) / 1e9)%float in
  (postSolBalance - preSolBalance)%float.

(** [x !== 0] on numbers: NaN differs from 0, -0 does not. *)
Definition differsFromZero (x : float) : bool := negb (x =? 0)%float.

(** [x > 0 ? "Bought" : "Sold"]. *)
Definition actionOf (x : float) : Action :=
  if (0 <? x)%float then Bought else Sold.

(** [x || 0] on [number | null | undefined]: 0, -0 and NaN are falsy. *)
Definition orZero (x : option float) : float :=
  match x with
  | Some v => if (v =? 0)%float || is_nan v then 0%float else v
  | None => 0%float
  end.

Record TokenChange : Type := mkTokenChange {
  change : float;
  change_mint : string
}.

(** A JavaScript [Map] with string keys, in iteration order: [set] on a key
    that is present replaces the value where the key stands, [set] on a new
    key appends. *)
Fixpoint mapSet {V : Type} (key : string) (value : V)
    (m : list (string * V)) : list (string * V) :=
  match m with
  | [] => [(key, value)]
  | (k, v) :: m' =>
      if decide (k = key) then (key, value) :: m'
      else (k, v) :: mapSet key value m'
  end.

(** One turn of the loop over [postTokenBalances]. *)
Definition recordTokenChange (targetWallet : string)
    (preTokens : list TokenBalance)
    (tokenChanges : list (string * TokenChange)) (postToken : TokenBalance)
  : list (string * TokenChange) :=
  let tokenAccountIndex := accountIndex postToken in
  if bool_decide (owner postToken = Some targetWallet) then
    let preBalanceEntry :=
      List.find (fun preBalance =>
                   (accountIndex preBalance =? tokenAccountIndex)%Z)
                preTokens in
    let preBalance :=
      orZero (preBalanceEntry ≫= fun e => uiAmount (uiTokenAmount e)) in
    let postBalance := orZero (uiAmount (uiTokenAmount postToken)) in
    let balanceChange := (postBalance - preBalance)%float in
    if differsFromZero balanceChange then
      mapSet (mint postToken)
             (mkTokenChange balanceChange (mint postToken)) tokenChanges
    else tokenChanges
  else tokenChanges.

Definition aggregateTokenChanges (targetWallet : string)
    (m : ParsedTransactionMeta) : list (string * TokenChange) :=
  let preTokens := default [] (preTokenBalances m) in
  let postTokens := default [] (postTokenBalances m) in
  fold_left (recordTokenChange targetWallet preTokens) postTokens [].

(** The loop over [tokenChanges.entries()]. *)
Fixpoint logTokenChanges (connection : Connection)
    (entries : list (string * TokenChange)) : Task unit :=
  match entries with
  | [] => mret tt
  | (mintKey, tc) :: rest =>
      md ← fetchTokenNameAndDecimals connection mintKey;
      let action := actionOf (change tc) in
      amount ← lift (toFixed (abs (change tc)) (decimals md));
      _ ← consoleWrite (LogToken (name md) mintKey action amount (symbol md));
      logTokenChanges connection rest
  end.

Definition logSolChange (solChange : float) : Task unit :=
  if differsFromZero solChange then
    amount ← lift (toFixed (abs solChange) 9);
    consoleWrite (LogSol (actionOf solChange) amount)
  else mret tt.

Definition processTransactionForTrades (tx : ParsedTransactionWithMeta)
    (connection : Connection) (targetWallet : string) : Task unit :=
  match meta tx with
  | None => consoleWrite ErrorTransactionMetaNotAvailable
  | Some m =>
      _ ← consoleWrite LogProcessingTransaction;
      _ ← logSolChange (solBalanceChange m);
      _ ← logTokenChanges connection (aggregateTokenChanges targetWallet m);
      consoleWrite LogBlank
  end.

Definition processTransaction (signature : string) (connection : Connection)
    (targetWallet : string) : Task unit :=
  tx ← awaitGetParsedTransaction connection signature;
  match tx with
  | None => consoleWrite (ErrorTransactionNotFound signature)
  | Some tx => processTransactionForTrades tx connection targetWallet
  end.

End Program.

(* ================================================================== *)
(** * Reference definitions used to state the properties *)

(** The byte whose value is [n mod 256]. *)
Definition byteOfN (n : N) : byte :=
  default x00 (Byte.of_N (n mod 256)).

(** The four bytes [writeUInt32LE] produces for [n]. *)
Definition u32le (n : N) : Buffer :=
  [byteOfN n; byteOfN (n / 2 ^ 8); byteOfN (n / 2 ^ 16); byteOfN (n / 2 ^ 24)].

(** A metadata account as the layout describes it: the fixed header, the
    length-prefixed name, the length-prefixed symbol, and whatever follows. *)
Definition metadataAccount (header name symbol rest : Buffer) : Buffer :=
  header ++ u32le (N.of_nat (length name)) ++ name
         ++ u32le (N.of_nat (length symbol)) ++ symbol ++ rest.

(** Post-processing as the specification words it: trailing NUL padding is
    stripped and surrounding white space is trimmed. *)
Fixpoint dropLeadingNul (s : JsString) : JsString :=
  match s with
  | [] => []
  | c :: s' => if (c =? 0)%N then dropLeadingNul s' else s
  end.

Definition stripTrailingNul (s : JsString) : JsString :=
  rev (dropLeadingNul (rev s)).

Definition postProcessAsSpecified (s : JsString) : JsString :=
  trim (stripTrailingNul s).

(** The buffer is too short for the decoder to read both length fields: the
    first one does not fit, or the second one, which stands right after the
    declared name, does not. *)
Definition lengthFieldMissing (data : Buffer) : Prop :=
  (N.of_nat (length data) < 69)%N
  ∨ ∃ L1, readUInt32LE data 65 = Returned L1
          ∧ (N.of_nat (length data) < 69 + L1 + 4)%N.

Section ResolutionSpec.
Context `{Platform}.
Variable connection : Connection.
Variable mintAddress : string.

(** The seeds of the derived metadata address. *)
Definition metadataSeeds (mintPublicKey : PublicKey) : list Buffer :=
  [String.list_byte_of_string "metadata";
   toBuffer METAPLEX_METADATA_PROGRAM;
   toBuffer mintPublicKey].

(** The precision read from the mint account, fetched by call number [n]. *)
Definition mintDecimalsAt (mintPublicKey : PublicKey) (n : nat) : Outcome N :=
  match getAccountInfo connection n mintPublicKey with
  | Returned (Some info) => readUInt8 (data info) 44
  | Returned None => Returned 0%N
  | Thrown e => Thrown e
  end.

(** Resolution fails at call number [n]: the ways the specification lists
    (the derived account is absent, a fetch raises, decoding fails) and the
    others the code can meet. *)
Inductive ResolutionFails (n : nat) : Prop :=
| BadAddress e :
    newPublicKey mintAddress = Thrown e → ResolutionFails n
| NoDerivedAddress key e :
    newPublicKey mintAddress = Returned key →
    findProgramAddress (metadataSeeds key) METAPLEX_METADATA_PROGRAM = Thrown e →
    ResolutionFails n
| MetadataFetchRaises key derived e :
    newPublicKey mintAddress = Returned key →
    findProgramAddress (metadataSeeds key) METAPLEX_METADATA_PROGRAM
      = Returned derived →
    getAccountInfo connection n (fst derived) = Thrown e →
    ResolutionFails n
| MetadataAbsent key derived :
    newPublicKey mintAddress = Returned key →
    findProgramAddress (metadataSeeds key) METAPLEX_METADATA_PROGRAM
      = Returned derived →
    getAccountInfo connection n (fst derived) = Returned None →
    ResolutionFails n
| MetadataMalformed key derived info e :
    newPublicKey mintAddress = Returned key →
    findProgramAddress (metadataSeeds key) METAPLEX_METADATA_PROGRAM
      = Returned derived →
    getAccountInfo connection n (fst derived) = Returned (Some info) →
    decodeMetaplexMetadata (data info) = Thrown e →
    ResolutionFails n
| DecimalsFail key derived info metadata e :
    newPublicKey mintAddress = Returned key →
    findProgramAddress (metadataSeeds key) METAPLEX_METADATA_PROGRAM
      = Returned derived →
    getAccountInfo connection n (fst derived) = Returned (Some info) →
    decodeMetaplexMetadata (data info) = Returned metadata →
    mintDecimalsAt key (S n) = Thrown e →
    ResolutionFails n.

(** Resolution succeeds at call number [n] with the record it builds. *)
Inductive ResolutionSucceeds (n : nat) : TokenMetadata → Prop :=
| Resolved key derived info metadata precision :
    newPublicKey mintAddress = Returned key →
    findProgramAddress (metadataSeeds key) METAPLEX_METADATA_PROGRAM
      = Returned derived →
    getAccountInfo connection n (fst derived) = Returned (Some info) →
    decodeMetaplexMetadata (data info) = Returned metadata →
    mintDecimalsAt key (S n) = Returned precision →
    ResolutionSucceeds n
      (mkTokenMetadata (trim (decoded_name metadata))
                       (trim (decoded_symbol metadata)) precision).

End ResolutionSpec.

(** A record as the resolver builds it from a decoded metadata account. *)
Definition IsDecodedRecord (tokenData : TokenMetadata) : Prop :=
  ∃ (account : Buffer) (metadata : NameAndSymbol) (precision : N),
    decodeMetaplexMetadata account = Returned metadata
    ∧ tokenData = mkTokenMetadata (trim (decoded_name metadata))
                                  (trim (decoded_symbol metadata)) precision.

(** Every record in the cache was built from a decoded metadata account. *)
Definition CacheDecoded (w : World) : Prop :=
  ∀ key tokenData,
    tokenMetadataCache w !! key = Some tokenData → IsDecodedRecord tokenData.

(** [m.get(key)] on a [Map] in iteration order. *)
Definition mapGet {V : Type} (key : string) (m : list (string * V)) : option V :=
  snd <$> List.find (fun kv => bool_decide (fst kv = key)) m.

(** The distinct elements of a list, each where it first occurs. *)
Fixpoint firstOccurrences (l : list string) : list string :=
  match l with
  | [] => []
  | k :: l' => k :: filter (fun k' => k' ≠ k) (firstOccurrences l')
  end.

(** The change of one post-state entry: its display amount minus the display
    amount of the pre-state entry with the same account index, 0 if none. *)
Definition tokenBalanceChange (preTokens : list TokenBalance)
    (postToken : TokenBalance) : float :=
  (orZero (uiAmount (uiTokenAmount postToken))
   - orZero (List.find (fun preBalance =>
                          (accountIndex preBalance =? accountIndex postToken)%Z)
                       preTokens
             ≫= fun e => uiAmount (uiTokenAmount e)))%float.

(** The entry is owned by the tracked wallet and its change differs from 0. *)
Definition recorded (targetWallet : string) (preTokens : list TokenBalance)
    (postToken : TokenBalance) : bool :=
  bool_decide (owner postToken = Some targetWallet)
  && differsFromZero (tokenBalanceChange preTokens postToken).

Definition recordedEntries (targetWallet : string) (m : ParsedTransactionMeta)
  : list TokenBalance :=
  filter (fun p => recorded targetWallet (default [] (preTokenBalances m)) p = true)
         (default [] (postTokenBalances m)).

(** What a console line reports: a token delta, a native delta, or neither. *)
Definition tokenLineDelta (line : ConsoleLine)
  : option (string * Action * float) :=
  match line with
  | LogToken _ mintKey action amount _ => Some (mintKey, action, fixed_value amount)
  | _ => None
  end.

Definition solLineDelta (line : ConsoleLine) : option (Action * FixedText) :=
  match line with
  | LogSol action amount => Some (action, amount)
  | _ => None
  end.

(** The delta the log loop prints for one entry of the map. *)
Definition reportOf (entry : string * TokenChange) : string * Action * float :=
  (fst entry, actionOf (change (snd entry)), abs (change (snd entry))).

(** The native line, if any, for a native change. *)
Definition nativeLines (solChange : float) : list ConsoleLine :=
  if differsFromZero solChange
  then [LogSol (actionOf solChange) (mkFixedText (abs solChange) 9)]
  else [].

(** The value the aggregation loop stores for an entry. *)
Definition changeOf (preTokens : list TokenBalance) (postToken : TokenBalance)
  : TokenChange :=
  mkTokenChange (tokenBalanceChange preTokens postToken) (mint postToken).

(** The map after [set] for each entry in turn, from the empty map. *)
Definition setAll (preTokens : list TokenBalance) (entries : list TokenBalance)
  : list (string * TokenChange) :=
  fold_left (fun acc p => mapSet (mint p) (changeOf preTokens p) acc) entries [].

(* ================================================================== *)
(** * Sample platform, stores and transactions *)

(** A platform to run the model on: a key is its own text, the empty text is
    not a key, and the derived address is the concatenation of the seeds. *)
Definition demoPlatform : Platform := {|
  PublicKey := string;
  newPublicKey := fun s =>
    if decide (s = EmptyString) then Thrown InvalidPublicKey else Returned s;
  toBuffer := String.list_byte_of_string;
  findProgramAddress := fun seeds _ =>
    Returned (String.string_of_list_byte (concat seeds), 255%N);
  METAPLEX_METADATA_PROGRAM := "metaqbxxUerdq28cj1RbAWkYQm3ybzjb6a8bt518x1s"
|}.

Definition emptyWorld : World := mkWorld ∅ [] 0 0.

(** A store with no account at all. *)
Definition emptyStore : @Connection demoPlatform :=
  @mkConnection demoPlatform (fun _ _ => Returned None) (fun _ _ => Returned None).

Definition sampleHeader : Buffer := repeat x00 65.

(** A store that holds one token: its metadata account, with the name and the
    symbol padded with NULs, at the derived address, and its mint account,
    with the precision 6 at offset 44, at the address of the token. *)
Definition usdCoinAccount : Buffer :=
  metadataAccount sampleHeader
    (String.list_byte_of_string "USD Coin" ++ repeat x00 24)
    (String.list_byte_of_string "USDC" ++ repeat x00 6) [x00; x00].

Definition usdCoinStore : @Connection demoPlatform :=
  @mkConnection demoPlatform
    (fun _ address =>
       if decide (address
                  = "metadatametaqbxxUerdq28cj1RbAWkYQm3ybzjb6a8bt518x1sMintX")
       then Returned (Some (mkAccountInfo usdCoinAccount))
       else if decide (address = "MintX")
       then Returned (Some (mkAccountInfo (repeat x00 44 ++ [x06] ++ repeat x00 37)))
       else Returned None)
    (fun _ _ => Returned None).

Definition usdc : TokenMetadata := mkTokenMetadata (js "USD Coin") (js "USDC") 6.

Definition warmWorld : World := mkWorld {[ "MintX" := usdc ]} [] 0 0.

Definition wallet : string := "Wallet".

Definition tokenEntry (index : Z) (mintKey : string) (holder : string)
    (amount : float) : TokenBalance :=
  mkTokenBalance index mintKey (Some holder) (mkTokenAmount (Some amount)).

(** Asset X held in two accounts of the wallet: account 1 goes from nothing to
    5, account 2 stays at 3. *)
Definition splitHolding : ParsedTransactionMeta :=
  mkMeta [1000000000%float] [1000000000%float]
         (Some [tokenEntry 2 "X" wallet 3])
         (Some [tokenEntry 1 "X" wallet 5; tokenEntry 2 "X" wallet 3]).

(** Asset X held in two accounts of the wallet, both changing; asset Y of
    another wallet changing too. *)
Definition twoAccounts : ParsedTransactionMeta :=
  mkMeta [2000000000%float] [1500000000%float]
         (Some [tokenEntry 3 "X" wallet 10; tokenEntry 4 "X" wallet 1;
                tokenEntry 5 "Y" "Other" 7])
         (Some [tokenEntry 3 "X" wallet 14.25; tokenEntry 4 "X" wallet 0.5;
                tokenEntry 5 "Y" "Other" 9]).

(** Two native balances one lamport apart, both exact as binary64. *)
Definition oneLamportApart : ParsedTransactionMeta :=
  mkMeta [9000000000000001%float] [9000000000000002%float] None None.

(** From one lamport to three. *)
Definition twoLamports : ParsedTransactionMeta :=
  mkMeta [1%float] [3%float] None None.

Definition unchangedBalance : ParsedTransactionMeta :=
  mkMeta [2000000000%float] [2000000000%float] None None.

(** A collaborator that knows one transaction, which has no balance-change
    section. *)
Definition metaLessStore : @Connection demoPlatform :=
  @mkConnection demoPlatform
    (fun _ _ => Returned None)
    (fun _ signature =>
       if decide (signature = "sig1") then Returned (Some (mkTx None))
       else Returned None).

(* ================================================================== *)
(** * token-utils.ts: the price lookup *)

(** What [response.data] can be: a value parsed from JSON. The properties of
    an object are listed as the parser met them; a repeated name keeps its last
    value. *)
Unset Elimination Schemes.
Inductive Json : Type :=
| JNull
| JBool (b : bool)
| JNumber (x : float)
| JString (s : JsString)
| JArray (items : list Json)
| JObject (fields : list (string * Json)).
Set Elimination Schemes.

(** The property names the code reads. *)
Inductive PropName : Type := P_pairs | P_length | P_0 | P_priceUsd.

Definition propKey (p : PropName) : string :=
  match p with
  | P_pairs => "pairs"
  | P_length => "length"
  | P_0 => "0"
  | P_priceUsd => "priceUsd"
  end.

(** What the price lookup can meet: a failed request, or a TypeError (a
    property of [null] or [undefined], a value that has no primitive). *)
Inductive PriceError : Type :=
| TypeError
| RequestFailed (status : Z).

#[global] Instance PriceError_bind : MBind (sum PriceError) := fun A B f m =>
  match m with
  | inr a => f a
  | inl e => inl e
  end.

Inductive PriceConsoleLine : Type :=
| ErrorNoPairsFound (tokenAddress : string)
    (* console.error("No pairs found for the token address:", tokenAddress) *)
| ErrorFetchingTokenPrice (error : PriceError).
    (* console.error("Error fetching token price from Dexscreener:", error) *)

(** A length as a number. *)
Definition floatOfNat (n : nat) : float :=
  PrimFloat.of_uint63 (Uint63.of_Z (Z.of_nat n)).

(** The length of a string in UTF-16 code units, and its first unit. *)
Definition utf16Length (s : JsString) : nat :=
  fold_right (fun c n => (if (0x10000 <=? c)%N then 2 else 1) + n) 0 s.

Definition firstUnit (s : JsString) : option N :=
  match s with
  | [] => None
  | c :: _ =>
      Some (if (0x10000 <=? c)%N then 0xD800 + (c - 0x10000) / 0x400 else c)%N
  end.

(** [v.p] for a value that is neither [null] nor [undefined]; [None] is
    [undefined]. None of the four names is a property of a prototype. *)
Definition getProp (v : Json) (p : PropName) : option Json :=
  match v with
  | JObject fields =>
      snd <$> List.find (fun kv => bool_decide (fst kv = propKey p)) (rev fields)
  | JArray items =>
      match p with
      | P_length => Some (JNumber (floatOfNat (length items)))
      | P_0 => head items
      | _ => None
      end
  | JString s =>
      match p with
      | P_length => Some (JNumber (floatOfNat (utf16Length s)))
      | P_0 => (fun u => JString [u]) <$> firstUnit s
      | _ => None
      end
  | _ => None
  end.

(** [v?.p]. *)
Definition optMember (v : option Json) (p : PropName) : option Json :=
  match v with
  | None | Some JNull => None
  | Some x => getProp x p
  end.

(** [v.p] and [v[0]]: a TypeError on [null] and [undefined]. *)
Definition member (v : option Json) (p : PropName)
  : PriceError + option Json :=
  match v with
  | None | Some JNull => inl TypeError
  | Some x => inr (getProp x p)
  end.

(** [x || null] on a number: 0, -0 and NaN are falsy. *)
Definition orNull (x : float) : option float :=
  if (x =? 0)%float || is_nan x then None else Some x.

Section PriceLookup.
(** [(await axios.get(url)).data], or the rejection. *)
Variable axiosGet : string → PriceError + option Json.
(** [parseFloat(v)]: the text of [v] read as a number; it throws when [v] has
    no text. *)
Variable parseFloat : option Json → PriceError + float.
(** The number a string, an array or an object converts to in a comparison;
    it throws when the value has no primitive. *)
Variable toNumber : Json → PriceError + float.

(** [v > 0]. *)
Definition greaterThanZero (v : option Json) : PriceError + bool :=
  match v with
  | None => inr false
  | Some JNull => inr false
  | Some (JBool b) => inr b
  | Some (JNumber x) => inr (0 <? x)%float
  | Some compound => x ← toNumber compound; inr (0 <? x)%float
  end.

(** The body of the [try] block: the value returned and the lines written. *)
Definition priceFromResponse (tokenAddress : string)
  : PriceError + (option float * list PriceConsoleLine) :=
  let url := ("https://api.dexscreener.com/latest/dex/tokens/" +:+ tokenAddress)%string in
  data ← axiosGet url;
  positive ← greaterThanZero (optMember (optMember data P_pairs) P_length);
  if (positive : bool) then
    pairs ← member data P_pairs;
    first ← member pairs P_0;
    priceUsd ← parseFloat (optMember first P_priceUsd);
    inr (orNull priceUsd, [])
  else inr (None, [ErrorNoPairsFound tokenAddress]).

(** The outcome of the call and the lines it writes. *)
Definition fetchTokenPriceFromDexscreener (tokenAddress : string)
  : (PriceError + option float) * list PriceConsoleLine :=
  match priceFromResponse tokenAddress with
  | inr (result, lines) => (inr result, lines)
  | inl error => (inr None, [ErrorFetchingTokenPrice error])
  end.

End PriceLookup.

(* ================================================================== *)
(** * Further reference definitions *)

(** One more code point is owed while a sequence is open. *)
Definition owed (st : Utf8.state) : nat :=
  if (Utf8.bytes_needed st =? 0)%N then 0 else 1.

(** A store whose metadata account for MintX stops inside the first length
    field. *)
Definition brokenStore : @Connection demoPlatform :=
  @mkConnection demoPlatform
    (fun _ address =>
       if decide (address
                  = "metadatametaqbxxUerdq28cj1RbAWkYQm3ybzjb6a8bt518x1sMintX")
       then Returned (Some (mkAccountInfo (sampleHeader ++ [x08; x00]%byte)))
       else Returned None)
    (fun _ _ => Returned None).

(** A store with the metadata account of [usdCoinStore] and a mint account of
    44 bytes. *)
Definition shortMintStore : @Connection demoPlatform :=
  @mkConnection demoPlatform
    (fun _ address =>
       if decide (address
                  = "metadatametaqbxxUerdq28cj1RbAWkYQm3ybzjb6a8bt518x1sMintX")
       then Returned (Some (mkAccountInfo usdCoinAccount))
       else if decide (address = "MintX")
       then Returned (Some (mkAccountInfo (repeat x00 44)))
       else Returned None)
    (fun _ _ => Returned None).

(** A metadata account whose name is the text "Unknown" and whose symbol is
    the text "UNKNOWN", both padded with NULs. *)
Definition unknownNamedAccount : Buffer :=
  metadataAccount sampleHeader
    (String.list_byte_of_string "Unknown" ++ repeat x00 25)
    (String.list_byte_of_string "UNKNOWN" ++ repeat x00 3) [].

(** A store with that metadata account for MintX and a mint account whose
    byte at offset 44 is 0. *)
Definition unknownNamedStore : @Connection demoPlatform :=
  @mkConnection demoPlatform
    (fun _ address =>
       if decide (address
                  = "metadatametaqbxxUerdq28cj1RbAWkYQm3ybzjb6a8bt518x1sMintX")
       then Returned (Some (mkAccountInfo unknownNamedAccount))
       else if decide (address = "MintX")
       then Returned (Some (mkAccountInfo (repeat x00 82)))
       else Returned None)
    (fun _ _ => Returned None).

(** The wallet receives 5 of asset X in a token account it did not have
    before: the transaction carries no pre-state token entry. *)
Definition firstPurchase : ParsedTransactionMeta :=
  mkMeta [2000000000%float] [1500000000%float]
         None (Some [tokenEntry 1 "X" wallet 5]).

(** A world whose cache holds, for X, a record with a precision that
    [toFixed] refuses. *)
Definition oddPrecisionWorld : World :=
  mkWorld {[ "X" := mkTokenMetadata (js "Odd") (js "ODD") 200 ]} [] 0 0.

(** The number of post-state token entries of the transaction the collaborator
    returns for a signature, 0 when it returns none. *)
Definition postEntryCount `{Platform} (connection : Connection)
    (signature : string) (w : World) : nat :=
  match getParsedTransaction connection (transactionFetches w) signature with
  | Returned (Some tx) =>
      match meta tx with
      | Some m => length (default [] (postTokenBalances m))
      | None => 0
      end
  | _ => 0
  end.

(** A collaborator that rejects every transaction fetch. *)
Definition failingStore : @Connection demoPlatform :=
  @mkConnection demoPlatform
    (fun _ _ => Returned None) (fun _ _ => Thrown (RpcError 429)).

(** A collaborator that knows one transaction, [twoAccounts], and no account. *)
Definition twoAccountsStore : @Connection demoPlatform :=
  @mkConnection demoPlatform
    (fun _ _ => Returned None)
    (fun _ _ => Returned (Some (mkTx (Some twoAccounts)))).

(** A world whose cache already holds a record for X. *)
Definition warmXWorld : World := mkWorld {[ "X" := usdc ]} [] 0 0.

(** The token accounts of [twoAccounts] before the transaction, unchanged
    after it, and a native balance that stays the same. *)
Definition nothingMoved : ParsedTransactionMeta :=
  mkMeta [2000000000%float] [2000000000%float]
         (preTokenBalances twoAccounts) (preTokenBalances twoAccounts).

(** A text that does not start with white space. *)
Definition startsClean (s : JsString) : Prop :=
  match s with
  | c :: _ => isWhiteSpace c = false
  | [] => True
  end.

(** A text without NUL and without surrounding white space. *)
Definition CleanText (s : JsString) : Prop :=
  (0%N ∉ s) ∧ startsClean s ∧ startsClean (rev s).

(** The line the log loop writes for an entry of the map, given the record
    the resolver returned for it. *)
Definition tokenLine (md : TokenMetadata) (entry : string * TokenChange)
  : ConsoleLine :=
  LogToken (name md) (fst entry) (actionOf (change (snd entry)))
           (mkFixedText (abs (change (snd entry))) (decimals md)) (symbol md).

(** Bytes of ASCII text without NUL. *)
Definition asciiText (bytes : Buffer) : Prop :=
  Forall (fun b => (0 < Byte.to_N b <= 0x7F)%N) bytes.

(** Bytes of ASCII text without NUL that neither starts nor ends with white
    space. *)
Definition plainText (bytes : Buffer) : Prop :=
  asciiText bytes
  ∧ startsClean (map Byte.to_N bytes)
  ∧ startsClean (rev (map Byte.to_N bytes)).

(** The line is a token line. *)
Definition isTokenLine (line : ConsoleLine) : bool :=
  match line with
  | LogToken _ _ _ _ _ => true
  | _ => false
  end.

(** A binary64 number that is a zero or a finite non-zero number. *)
Definition finiteAmount (x : option float) : Prop :=
  match x with
  | Some v => is_finite v = true
  | None => True
  end.

(** One [await] of a task: expose the first bind. *)
Ltac run_bind := unfold mbind at 1, Task_bind at 1.

(* ================================================================== *)
(** * Buffers: positions, slices and reads *)

Section BufferFacts.
Context {A : Type}.
Implicit Types l : list A.

Lemma dropN_0 l : dropN 0 l = l.
Proof. by destruct l. Qed.

Lemma dropN_succ x l n : dropN (N.succ n) (x :: l) = dropN n l.
Proof.
  simpl. destruct (N.eqb_spec (N.succ n) 0%N) as [E|_]; [lia|].
  by rewrite N.pred_succ.
Qed.

Lemma takeN_succ x l n : takeN (N.succ n) (x :: l) = x :: takeN n l.
Proof.
  simpl. destruct (N.eqb_spec (N.succ n) 0%N) as [E|_]; [lia|].
  by rewrite N.pred_succ.
Qed.

Lemma takeN_0 l : takeN 0 l = [].
Proof. by destruct l. Qed.

Lemma dropN_app_exact l1 l2 n :
  n = N.of_nat (length l1) → dropN n (l1 ++ l2) = l2.
Proof.
  intros ->. induction l1 as [|x l1 IH]; [apply dropN_0|].
  rewrite length_cons, Nat2N.inj_succ. simpl app. by rewrite dropN_succ.
Qed.

Lemma takeN_app_exact l1 l2 n :
  n = N.of_nat (length l1) → takeN n (l1 ++ l2) = l1.
Proof.
  intros ->. induction l1 as [|x l1 IH]; [apply takeN_0|].
  rewrite length_cons, Nat2N.inj_succ. simpl app. by rewrite takeN_succ, IH.
Qed.

Lemma dropN_length l n :
  N.of_nat (length (dropN n l)) = (N.of_nat (length l) - n)%N.
Proof.
  revert n. induction l as [|x l IH]; intros n; [simpl; lia|].
  destruct (N.eq_dec n 0%N) as [->|Hn]; [rewrite dropN_0; lia|].
  replace n with (N.succ (N.pred n)) at 1 by lia.
  rewrite dropN_succ, IH, length_cons. lia.
Qed.

Lemma takeN_all l n : (N.of_nat (length l) <= n)%N → takeN n l = l.
Proof.
  revert n. induction l as [|x l IH]; intros n Hn; [done|].
  rewrite length_cons in Hn.
  replace n with (N.succ (N.pred n)) by lia.
  rewrite takeN_succ, IH; [done|lia].
Qed.
End BufferFacts.

Lemma to_N_byteOfN n : Byte.to_N (byteOfN n) = (n mod 256)%N.
Proof.
  unfold byteOfN. destruct (Byte.of_N (n mod 256)) as [b|] eqn:E.
  - simpl. by apply Byte.to_of_N.
  - apply Byte.of_N_None_iff in E.
    pose proof (N.mod_upper_bound n 256). lia.
Qed.

Lemma u32le_value n :
  (n < 2 ^ 32)%N →
  (n mod 256 + (n / 2 ^ 8) mod 256 * 2 ^ 8 + (n / 2 ^ 16) mod 256 * 2 ^ 16
   + (n / 2 ^ 24) mod 256 * 2 ^ 24 = n)%N.
Proof.
  intros Hn.
  change (2 ^ 8)%N with 256%N. change (2 ^ 16)%N with (256 * 256)%N.
  change (2 ^ 24)%N with (256 * 256 * 256)%N.
  change (2 ^ 32)%N with 4294967296%N in Hn.
  rewrite <- !N.Div0.div_div.
  pose proof (N.Div0.div_mod n 256) as H0.
  pose proof (N.Div0.div_mod (n / 256) 256) as H1.
  pose proof (N.Div0.div_mod (n / 256 / 256) 256) as H2.
  pose proof (N.Div0.div_mod (n / 256 / 256 / 256) 256) as H3.
  pose proof (N.mod_upper_bound n 256).
  pose proof (N.mod_upper_bound (n / 256) 256).
  pose proof (N.mod_upper_bound (n / 256 / 256) 256).
  pose proof (N.mod_upper_bound (n / 256 / 256 / 256) 256).
  assert (n / 256 / 256 / 256 / 256 = 0)%N as Htop.
  { rewrite !N.Div0.div_div. apply N.div_small. lia. }
  rewrite Htop in H3. lia.
Qed.

(** [readUInt32LE] reads back what [u32le] wrote, wherever it stands. *)
Lemma readUInt32LE_u32le (before after : Buffer) (n offset : N) :
  offset = N.of_nat (length before) → (n < 2 ^ 32)%N →
  readUInt32LE (before ++ u32le n ++ after) offset = Returned n.
Proof.
  intros Hoff Hn. unfold readUInt32LE.
  rewrite (dropN_app_exact before _ offset Hoff). simpl.
  rewrite !to_N_byteOfN. f_equal. by apply u32le_value.
Qed.

(** [readUInt32LE] throws exactly when fewer than four bytes follow. *)
Lemma readUInt32LE_thrown (data : Buffer) (offset : N) :
  (N.of_nat (length data) < offset + 4)%N →
  readUInt32LE data offset = Thrown RangeError.
Proof.
  intros Hlen. unfold readUInt32LE.
  pose proof (dropN_length data offset) as Hd.
  destruct (dropN offset data) as [|b0 [|b1 [|b2 [|b3 tl]]]]; try done.
  simpl in Hd. lia.
Qed.


(* ================================================================== *)
(** * The decoder on a well-formed account (C2) *)

Lemma bufferSlice_exact (before field after : Buffer) (start len : N) :
  start = N.of_nat (length before) → len = N.of_nat (length field) →
  bufferSlice (before ++ field ++ after) start (start + len) = field.
Proof.
  intros Hs Hl. unfold bufferSlice.
  rewrite (dropN_app_exact before _ start Hs).
  apply takeN_app_exact. lia.
Qed.

(** Padding made of NULs only disappears, and so does nothing else, when the
    text before the padding holds no NUL. *)
Lemma removeNul_padding (text : JsString) (k : nat) :
  0%N ∉ text → removeNul (text ++ repeat 0%N k) = text.
Proof.
  intros Hno. unfold removeNul. rewrite filter_app.
  assert (filter (λ c : N, c ≠ 0%N) (repeat 0%N k) = []) as ->.
  { induction k as [|k IH]; [done|]. simpl.
    rewrite filter_cons_False; [exact IH | by intros ?]. }
  rewrite app_nil_r. induction text as [|c text IH]; [done|].
  apply not_elem_of_cons in Hno as [Hc Hno].
  rewrite filter_cons_True by done. by rewrite IH.
Qed.

(** ASCII bytes decode to themselves. *)
Lemma Utf8_decode_ascii (bytes : Buffer) :
  Forall (fun b => (Byte.to_N b <= 0x7F)%N) bytes →
  Utf8.decode bytes = map Byte.to_N bytes.
Proof.
  unfold Utf8.decode. induction 1 as [|b bytes Hb _ IH]; [done|].
  cbn [Utf8.run map]. unfold Utf8.step, Utf8.lead. cbn [Utf8.bytes_needed Utf8.init].
  rewrite N.eqb_refl. apply N.leb_le in Hb. rewrite Hb. cbn [app]. by rewrite IH.
Qed.

(** An ASCII text without NUL, padded with NULs to the declared length, is
    what comes back from the decoding and the removal. *)
Lemma removeNul_decode_ascii_padded (text : Buffer) (k : nat) :
  Forall (fun b => (0 < Byte.to_N b <= 0x7F)%N) text →
  removeNul (Utf8.decode (text ++ repeat x00 k)) = map Byte.to_N text.
Proof.
  intros Htext. rewrite Utf8_decode_ascii.
  - rewrite map_app.
    replace (map Byte.to_N (repeat x00 k)) with (repeat 0%N k)
      by (induction k as [|k IH]; [done | cbn; by rewrite <- IH]).
    apply removeNul_padding. rewrite list_elem_of_fmap.
    intros (b & Hb & Hin). rewrite Forall_forall in Htext.
    apply Htext in Hin. lia.
  - apply Forall_app. split.
    + eapply Forall_impl; [exact Htext|]. simpl. intros; lia.
    + induction k as [|k IH]; by constructor.
Qed.

(** C2 (amended): on a well-formed account, the decoder returns the decoded
    name and the decoded symbol with every U+0000 removed, wherever it stands,
    and with white space left as it is; the bytes after the symbol are not
    read. *)
Theorem decodeMetaplexMetadata_wellformed
    (header nameBytes symbolBytes rest : Buffer) :
  length header = 65%nat →
  (N.of_nat (length nameBytes) < 2 ^ 32)%N →
  (N.of_nat (length symbolBytes) < 2 ^ 32)%N →
  decodeMetaplexMetadata (metadataAccount header nameBytes symbolBytes rest)
  = Returned (mkNameAndSymbol (removeNul (Utf8.decode nameBytes))
                              (removeNul (Utf8.decode symbolBytes))).
Proof.
  intros Hh Hn Hs. unfold decodeMetaplexMetadata, metadataAccount.
  set (L1 := N.of_nat (length nameBytes)) in *.
  set (L2 := N.of_nat (length symbolBytes)) in *.
  rewrite (readUInt32LE_u32le header _ L1 (1 + 32 + 32)) by (rewrite ?Hh; done).
  cbn [mbind Outcome_bind].
  (* the name field *)
  rewrite (app_assoc header (u32le L1)).
  rewrite (bufferSlice_exact (header ++ u32le L1) nameBytes _ (1 + 32 + 32 + 4) L1);
    [| rewrite length_app, Hh; done | done].
  (* the symbol length *)
  rewrite (app_assoc (header ++ u32le L1) nameBytes).
  rewrite (readUInt32LE_u32le ((header ++ u32le L1) ++ nameBytes) _ L2);
    [| rewrite !length_app, Hh; simpl; unfold L1; lia | done].
  cbn [mbind Outcome_bind].
  rewrite (app_assoc _ (u32le L2)).
  rewrite (bufferSlice_exact (((header ++ u32le L1) ++ nameBytes) ++ u32le L2)
             symbolBytes rest (1 + 32 + 32 + 4 + L1 + 4) L2);
    [done | rewrite !length_app, Hh; simpl; unfold L1; lia | done].
Qed.

Lemma decodeMetaplexMetadata_wellformed_witness :
  decodeMetaplexMetadata
    (metadataAccount sampleHeader ["U"; "S"; "D"; x00; x00]%byte
                     ["$"]%byte [xff]%byte)
  = Returned (mkNameAndSymbol (js "USD") (js "$")).
Proof.
  exact (decodeMetaplexMetadata_wellformed sampleHeader
           ["U"; "S"; "D"; x00; x00]%byte ["$"]%byte [xff]%byte
           eq_refl eq_refl eq_refl).
Defined.

(** C2 (as stated) fails twice over: a NUL inside the name is removed, not
    only the trailing ones, and surrounding white space is kept. *)
Lemma decodeMetaplexMetadata_not_as_specified :
  decodeMetaplexMetadata
    (metadataAccount sampleHeader ["A"; x00; "B"]%byte [" "; "S"]%byte [])
  = Returned (mkNameAndSymbol (js "AB") (js " S"))
  ∧ postProcessAsSpecified (Utf8.decode ["A"; x00; "B"]%byte) = [65; 0; 66]%N
  ∧ postProcessAsSpecified (Utf8.decode [" "; "S"]%byte) = js "S"
  ∧ js "AB" ≠ [65; 0; 66]%N
  ∧ js " S" ≠ js "S".
Proof. repeat split; try reflexivity; discriminate. Qed.

(* ================================================================== *)
(** * The decoder on a short buffer (C3) *)




(* ================================================================== *)
(** * The resolver: what a resolution is *)

Section Resolution.
Context `{Platform}.
Variable connection : Connection.
Variable mintAddress : string.

Lemma resolution_decided (n : nat) :
  ResolutionFails connection mintAddress n ∨ ∃ tokenData, ResolutionSucceeds connection mintAddress n tokenData.
Proof.
  destruct (newPublicKey mintAddress) as [key|e] eqn:Hk;
    [|left; by eapply BadAddress].
  destruct (findProgramAddress (metadataSeeds key) METAPLEX_METADATA_PROGRAM)
    as [derived|e] eqn:Hd; [|left; by eapply NoDerivedAddress].
  destruct (getAccountInfo connection n (fst derived)) as [[info|]|e] eqn:Ha;
    [| left; by eapply MetadataAbsent | left; by eapply MetadataFetchRaises].
  destruct (decodeMetaplexMetadata (data info)) as [metadata|e] eqn:Hm;
    [|left; by eapply MetadataMalformed].
  destruct (mintDecimalsAt connection key (S n)) as [precision|e] eqn:Hp;
    [|left; by eapply DecimalsFail].
  right. eexists. by eapply Resolved.
Qed.

Lemma resolution_exclusive (n : nat) (tokenData : TokenMetadata) :
  ResolutionFails connection mintAddress n → ResolutionSucceeds connection mintAddress n tokenData → False.
Proof.
  intros Hf Hs. destruct Hs as [key derived info metadata precision K D A M P].
  destruct Hf; congruence.
Qed.

Implicit Types w : World.

Lemma fetchMintDecimals_run (key : PublicKey) w :
  fetchMintDecimals connection key w
  = (mintDecimalsAt connection key (accountFetches w),
     mkWorld (tokenMetadataCache w) (console w)
             (S (accountFetches w)) (transactionFetches w)).
Proof.
  unfold fetchMintDecimals, mintDecimalsAt, awaitGetAccountInfo, mbind,
    Task_bind.
  by destruct (getAccountInfo connection (accountFetches w) key)
    as [[info|]|e].
Qed.

(** A cache hit answers at once: the world is left as it was. *)
Lemma fetch_hit w (cached : TokenMetadata) :
  tokenMetadataCache w !! mintAddress = Some cached →
  fetchTokenNameAndDecimals connection mintAddress w = (Returned cached, w).
Proof. intros Hc. unfold fetchTokenNameAndDecimals. by rewrite Hc. Qed.

(** A failed resolution on a cache miss: the fallback is returned, the
    cache is left as it was, and at most the error line is written. *)
Lemma fetch_miss_fails w :
  tokenMetadataCache w !! mintAddress = None →
  ResolutionFails connection mintAddress (accountFetches w) →
  ∃ w', fetchTokenNameAndDecimals connection mintAddress w
        = (Returned UNKNOWN_TOKEN, w')
        ∧ tokenMetadataCache w' = tokenMetadataCache w
        ∧ accountFetches w ≤ accountFetches w'
        ∧ transactionFetches w' = transactionFetches w
        ∧ (console w' = console w
           ∨ ∃ e, console w'
                  = console w ++ [ErrorFetchingMetaplexMetadata mintAddress e]).
Proof.
  intros Hc Hf. unfold fetchTokenNameAndDecimals. rewrite Hc.
  unfold tryCatch, resolveFromChain, lift, mbind, Task_bind.
  destruct Hf as [e K|key e K D|key derived e K D A|key derived K D A
                 |key derived info e K D A M|key derived info metadata e K D A M P];
    unfold metadataSeeds in *; rewrite ?K, ?D; unfold awaitGetAccountInfo;
    rewrite ?A; cbn [data]; rewrite ?M; rewrite ?fetchMintDecimals_run;
    cbn [accountFetches]; rewrite ?P;
    eexists; (split; [reflexivity|]); cbn; split_and!; eauto; lia.
Qed.

(** A successful resolution on a cache miss: the record is stored under the
    identifier and returned, after two fetches. *)
Lemma fetch_miss_succeeds w (tokenData : TokenMetadata) :
  tokenMetadataCache w !! mintAddress = None →
  ResolutionSucceeds connection mintAddress (accountFetches w) tokenData →
  fetchTokenNameAndDecimals connection mintAddress w
  = (Returned tokenData,
     mkWorld (<[mintAddress := tokenData]> (tokenMetadataCache w))
             (console w) (S (S (accountFetches w))) (transactionFetches w)).
Proof.
  intros Hc Hs. unfold fetchTokenNameAndDecimals. rewrite Hc.
  unfold tryCatch, resolveFromChain, lift, mbind, Task_bind.
  destruct Hs as [key derived info metadata precision K D A M P].
  unfold metadataSeeds in *. rewrite K, D. unfold awaitGetAccountInfo.
  rewrite A. cbn [data]. rewrite M, fetchMintDecimals_run.
  cbn [accountFetches]. rewrite P. reflexivity.
Qed.

Lemma ResolutionSucceeds_decoded (n : nat) (tokenData : TokenMetadata) :
  ResolutionSucceeds connection mintAddress n tokenData →
  IsDecodedRecord tokenData.
Proof.
  intros [key derived info metadata precision _ _ _ M _].
  by exists (data info), metadata, precision.
Qed.

(** The resolver keeps the cache made of decoded records. *)
Lemma fetch_preserves_decoded w :
  CacheDecoded w →
  CacheDecoded (snd (fetchTokenNameAndDecimals connection mintAddress w)).
Proof.
  intros Hinv.
  destruct (tokenMetadataCache w !! mintAddress) as [cached|] eqn:Hc.
  { by rewrite (fetch_hit w cached Hc). }
  destruct (resolution_decided (accountFetches w)) as [Hf|[tokenData Hs]].
  - destruct (fetch_miss_fails w Hc Hf) as (w' & -> & Hcache & _).
    intros key md. cbn [snd]. rewrite Hcache. apply Hinv.
  - rewrite (fetch_miss_succeeds w tokenData Hc Hs). cbn [snd].
    intros key md. cbn [tokenMetadataCache].
    destruct (decide (key = mintAddress)) as [->|Hne].
    + rewrite lookup_insert_eq. intros [= <-].
      by eapply ResolutionSucceeds_decoded.
    + rewrite lookup_insert_ne by done. apply Hinv.
Qed.

End Resolution.

(* ================================================================== *)
(** * The resolver: cache hits (C8) and totality (C4) *)

(** C8: an identifier present in the cache is answered with the cached record
    and the world is left exactly as it was (no fetch is counted, nothing is
    written), whatever the collaborator would have answered; so resolving it a
    second time gives the identical record, again without any fetch. *)
Theorem fetchTokenNameAndDecimals_cache_hit `{Platform}
    (connection : Connection) (mintAddress : string) (w : World)
    (cached : TokenMetadata) :
  tokenMetadataCache w !! mintAddress = Some cached →
  fetchTokenNameAndDecimals connection mintAddress w = (Returned cached, w)
  ∧ ∀ later : Connection,
      fetchTokenNameAndDecimals later mintAddress
        (snd (fetchTokenNameAndDecimals connection mintAddress w))
      = (Returned cached, w).
Proof.
  intros Hc. rewrite (fetch_hit connection mintAddress w cached Hc).
  split; [done|]. intros later. by apply fetch_hit.
Qed.

Lemma fetchTokenNameAndDecimals_cache_hit_witness :
  @fetchTokenNameAndDecimals demoPlatform emptyStore "MintX" warmWorld
  = (Returned usdc, warmWorld)
  ∧ ∀ later : @Connection demoPlatform,
      @fetchTokenNameAndDecimals demoPlatform later "MintX"
        (snd (@fetchTokenNameAndDecimals demoPlatform emptyStore "MintX" warmWorld))
      = (Returned usdc, warmWorld).
Proof.
  apply (@fetchTokenNameAndDecimals_cache_hit demoPlatform emptyStore "MintX"
           warmWorld usdc).
  reflexivity.
Defined.

(** C4: whatever the identifier, the world and the answers of the
    collaborator, the resolver returns and does not throw; what it returns is
    the cached record, a record decoded from the chain, or the fallback; with
    a cache that holds decoded records only, as every cache the processor
    fills from empty does, it is a decoded record or the fallback. *)
Theorem fetchTokenNameAndDecimals_never_throws `{Platform}
    (connection : Connection) (mintAddress : string) (w : World) :
  ∃ tokenData w',
    fetchTokenNameAndDecimals connection mintAddress w = (Returned tokenData, w')
    ∧ (tokenMetadataCache w !! mintAddress = Some tokenData
       ∨ ResolutionSucceeds connection mintAddress (accountFetches w) tokenData
       ∨ tokenData = UNKNOWN_TOKEN)
    ∧ (CacheDecoded w →
       IsDecodedRecord tokenData ∨ tokenData = UNKNOWN_TOKEN).
Proof.
  destruct (tokenMetadataCache w !! mintAddress) as [cached|] eqn:Hc.
  { exists cached, w. split_and!; [by apply fetch_hit | by left |].
    intros Hinv. left. by apply (Hinv mintAddress). }
  destruct (resolution_decided connection mintAddress (accountFetches w))
    as [Hf|[tokenData Hs]].
  - destruct (fetch_miss_fails connection mintAddress w Hc Hf) as (w' & -> & _).
    exists UNKNOWN_TOKEN, w'. auto.
  - rewrite (fetch_miss_succeeds connection mintAddress w tokenData Hc Hs).
    eexists _, _. split_and!; [reflexivity | auto |].
    intros _. left. by eapply ResolutionSucceeds_decoded.
Qed.

Lemma fetchTokenNameAndDecimals_never_throws_witness :
  ∃ tokenData w',
    @fetchTokenNameAndDecimals demoPlatform usdCoinStore "MintX" emptyWorld
    = (Returned tokenData, w')
    ∧ (IsDecodedRecord tokenData ∨ tokenData = @UNKNOWN_TOKEN).
Proof.
  destruct (@fetchTokenNameAndDecimals_never_throws demoPlatform usdCoinStore
              "MintX" emptyWorld) as (tokenData & w' & Hrun & _ & Hdecoded).
  exists tokenData, w'. split; [exact Hrun|]. apply Hdecoded.
  intros key md Hlookup.
  change ((∅ : gmap string TokenMetadata) !! key = Some md) in Hlookup.
  by rewrite lookup_empty in Hlookup.
Defined.

(** On the sample store the resolution succeeds: the record is decoded,
    trimmed, stored, and returned again without a fetch. *)
Example fetchTokenNameAndDecimals_usd_coin :
  @fetchTokenNameAndDecimals demoPlatform usdCoinStore "MintX" emptyWorld
  = (Returned usdc, mkWorld {[ "MintX" := usdc ]} [] 2 0)
  ∧ @fetchTokenNameAndDecimals demoPlatform usdCoinStore "MintX"
      (mkWorld {[ "MintX" := usdc ]} [] 2 0)
    = (Returned usdc, mkWorld {[ "MintX" := usdc ]} [] 2 0).
Proof. split; reflexivity. Qed.

(* ================================================================== *)
(** * The resolver: failures and the cache (C10, C1) *)

(** C10 (amended): on a cache miss, a failed resolution (the derived account
    is absent, a fetch raises, decoding fails) returns the fallback and leaves
    the cache as it was; whatever a call does, the cache afterwards is the
    cache before, or the cache before with the successfully decoded record
    stored under the identifier; so a cache that holds decoded records only
    still does after the call. Nothing is said of the value of a stored
    record: it is built from what the chain holds and is compared with
    nothing. *)
Theorem fetchTokenNameAndDecimals_cache_written_on_success_only `{Platform}
    (connection : Connection) (mintAddress : string) (w : World) :
  (tokenMetadataCache w !! mintAddress = None →
   ResolutionFails connection mintAddress (accountFetches w) →
   ∃ w', fetchTokenNameAndDecimals connection mintAddress w
         = (Returned UNKNOWN_TOKEN, w')
         ∧ tokenMetadataCache w' = tokenMetadataCache w)
  ∧ (∀ result w',
       fetchTokenNameAndDecimals connection mintAddress w = (result, w') →
       tokenMetadataCache w' = tokenMetadataCache w
       ∨ ∃ tokenData,
           ResolutionSucceeds connection mintAddress (accountFetches w) tokenData
           ∧ result = Returned tokenData
           ∧ tokenMetadataCache w'
             = <[mintAddress := tokenData]> (tokenMetadataCache w))
  ∧ (CacheDecoded w →
     CacheDecoded (snd (fetchTokenNameAndDecimals connection mintAddress w))).
Proof.
  split_and!; [| | apply fetch_preserves_decoded].
  - intros Hc Hf.
    destruct (fetch_miss_fails connection mintAddress w Hc Hf)
      as (w' & Hrun & Hcache & _).
    by exists w'.
  - intros result w' Hrun.
    destruct (tokenMetadataCache w !! mintAddress) as [cached|] eqn:Hc.
    { rewrite (fetch_hit connection mintAddress w cached Hc) in Hrun.
      injection Hrun as _ <-. by left. }
    destruct (resolution_decided connection mintAddress (accountFetches w))
      as [Hf|[tokenData Hs]].
    + destruct (fetch_miss_fails connection mintAddress w Hc Hf)
        as (w1 & Hrun1 & Hcache & _).
      rewrite Hrun1 in Hrun. injection Hrun as _ <-. by left.
    + rewrite (fetch_miss_succeeds connection mintAddress w tokenData Hc Hs)
        in Hrun.
      injection Hrun as <- <-. right. by exists tokenData.
Qed.

Lemma fetchTokenNameAndDecimals_cache_written_on_success_only_witness :
  ∃ w', @fetchTokenNameAndDecimals demoPlatform emptyStore "MintX" emptyWorld
        = (Returned (@UNKNOWN_TOKEN), w')
        ∧ tokenMetadataCache w' = tokenMetadataCache emptyWorld.
Proof.
  apply (proj1 (@fetchTokenNameAndDecimals_cache_written_on_success_only
                  demoPlatform emptyStore "MintX" emptyWorld)).
  - reflexivity.
  - by eapply (@MetadataAbsent demoPlatform emptyStore "MintX" 0).
Defined.

(** C10 (as stated) fails: a token whose metadata account names it "Unknown"
    with the symbol "UNKNOWN" and whose mint account gives the precision 0
    resolves successfully, and the record stored in the cache is equal to the
    fallback. *)
Lemma fetchTokenNameAndDecimals_sentinel_value_stored :
  @ResolutionSucceeds demoPlatform unknownNamedStore "MintX" 0 (@UNKNOWN_TOKEN)
  ∧ @fetchTokenNameAndDecimals demoPlatform unknownNamedStore "MintX" emptyWorld
    = (Returned (@UNKNOWN_TOKEN), mkWorld {[ "MintX" := @UNKNOWN_TOKEN ]} [] 2 0)
  ∧ tokenMetadataCache (mkWorld {[ "MintX" := @UNKNOWN_TOKEN ]} [] 2 0) !! "MintX"
    = Some (@UNKNOWN_TOKEN).
Proof.
  split_and!; [|reflexivity..].
  exact (@Resolved demoPlatform unknownNamedStore "MintX" 0 "MintX"
           ("metadatametaqbxxUerdq28cj1RbAWkYQm3ybzjb6a8bt518x1sMintX", 255%N)
           (mkAccountInfo unknownNamedAccount)
           (mkNameAndSymbol (js "Unknown") (js "UNKNOWN")) 0%N
           eq_refl eq_refl eq_refl eq_refl eq_refl).
Qed.

(** On a cache miss, once the address is parsed and the metadata address
    derived, the account store is asked at least once. *)
Lemma fetch_miss_asks_store `{Platform} (connection : Connection)
    (mintAddress : string) (w : World) key derived :
  tokenMetadataCache w !! mintAddress = None →
  newPublicKey mintAddress = Returned key →
  findProgramAddress (metadataSeeds key) METAPLEX_METADATA_PROGRAM
    = Returned derived →
  accountFetches w
  < accountFetches (snd (fetchTokenNameAndDecimals connection mintAddress w)).
Proof.
  intros Hc K D.
  destruct (resolution_decided connection mintAddress (accountFetches w))
    as [Hf|[tokenData Hs]].
  - unfold fetchTokenNameAndDecimals. rewrite Hc.
    unfold tryCatch, resolveFromChain, lift, mbind, Task_bind.
    unfold metadataSeeds in *. rewrite K, D. unfold awaitGetAccountInfo.
    destruct (getAccountInfo connection (accountFetches w) derived.1)
      as [[info|]|e]; cbn; try lia.
    destruct (decodeMetaplexMetadata (data info)); cbn; try lia.
    rewrite fetchMintDecimals_run. cbn.
    destruct (mintDecimalsAt _ _ _); cbn; lia.
  - rewrite (fetch_miss_succeeds connection mintAddress w tokenData Hc Hs).
    cbn. lia.
Qed.

(** C1 (amended): when the fetch of the derived metadata address returns
    absent, the resolver returns the fallback after that one fetch and leaves
    the cache and the console as they were: the fallback is not stored, and a
    later call with the same identifier asks the account store again. *)
Theorem fetchTokenNameAndDecimals_absent_not_cached `{Platform}
    (connection : Connection) (mintAddress : string) (w : World)
    (key : PublicKey) (derived : PublicKey * N) :
  tokenMetadataCache w !! mintAddress = None →
  newPublicKey mintAddress = Returned key →
  findProgramAddress (metadataSeeds key) METAPLEX_METADATA_PROGRAM
    = Returned derived →
  getAccountInfo connection (accountFetches w) (fst derived) = Returned None →
  fetchTokenNameAndDecimals connection mintAddress w
  = (Returned UNKNOWN_TOKEN,
     mkWorld (tokenMetadataCache w) (console w)
             (S (accountFetches w)) (transactionFetches w))
  ∧ ∀ later : Connection,
      S (accountFetches w)
      < accountFetches
          (snd (fetchTokenNameAndDecimals later mintAddress
                  (mkWorld (tokenMetadataCache w) (console w)
                           (S (accountFetches w)) (transactionFetches w)))).
Proof.
  intros Hc K D A. split.
  - unfold fetchTokenNameAndDecimals. rewrite Hc.
    unfold tryCatch, resolveFromChain, lift, mbind, Task_bind.
    unfold metadataSeeds in *. rewrite K, D. unfold awaitGetAccountInfo.
    by rewrite A.
  - intros later.
    exact (fetch_miss_asks_store later mintAddress
             (mkWorld (tokenMetadataCache w) (console w)
                      (S (accountFetches w)) (transactionFetches w))
             key derived Hc K D).
Qed.

Lemma fetchTokenNameAndDecimals_absent_not_cached_witness :
  @fetchTokenNameAndDecimals demoPlatform emptyStore "MintX" emptyWorld
  = (Returned (@UNKNOWN_TOKEN), mkWorld ∅ [] 1 0)
  ∧ ∀ later : @Connection demoPlatform,
      1 < accountFetches
            (snd (@fetchTokenNameAndDecimals demoPlatform later "MintX"
                    (mkWorld ∅ [] 1 0))).
Proof.
  apply (@fetchTokenNameAndDecimals_absent_not_cached demoPlatform emptyStore
           "MintX" emptyWorld "MintX"
           ("metadatametaqbxxUerdq28cj1RbAWkYQm3ybzjb6a8bt518x1sMintX", 255%N));
    reflexivity.
Defined.

(** C1 (as stated) fails: with a store that holds no account, the first call
    returns the fallback, the cache still has no entry for the identifier
    afterwards, and the second call fetches once more. *)
Lemma fetchTokenNameAndDecimals_fallback_not_stored :
  @fetchTokenNameAndDecimals demoPlatform emptyStore "MintX" emptyWorld
  = (Returned (@UNKNOWN_TOKEN), mkWorld ∅ [] 1 0)
  ∧ tokenMetadataCache (mkWorld ∅ [] 1 0) !! "MintX" = None
  ∧ @fetchTokenNameAndDecimals demoPlatform emptyStore "MintX" (mkWorld ∅ [] 1 0)
    = (Returned (@UNKNOWN_TOKEN), mkWorld ∅ [] 2 0).
Proof. repeat split. Qed.

(* ================================================================== *)
(** * The insertion-ordered map *)

Section MapFacts.
Context {V : Type}.
Implicit Types m : list (string * V).

Lemma mapSet_keys key (value : V) m :
  map fst (mapSet key value m)
  = if decide (key ∈ map fst m) then map fst m else map fst m ++ [key].
Proof.
  induction m as [|[k v] m IH]; cbn [mapSet map fst].
  - case_decide as Hin; [by apply elem_of_nil in Hin | done].
  - destruct (decide (k = key)) as [->|Hk]; cbn [map fst].
    + rewrite decide_True; [done | by left].
    + rewrite IH. destruct (decide (key ∈ map fst m)) as [Hin|Hout].
      * rewrite decide_True; [done | by right].
      * rewrite decide_False; [done|].
        intros [?|?]%elem_of_cons; congruence.
Qed.

Lemma mapGet_mapSet key key' (value : V) m :
  mapGet key (mapSet key' value m)
  = if decide (key = key') then Some value else mapGet key m.
Proof.
  unfold mapGet. induction m as [|[k v] m IH]; cbn [mapSet List.find fst].
  - case_bool_decide; case_decide; simplify_eq; done.
  - destruct (decide (k = key')) as [->|Hk]; cbn [List.find fst].
    + repeat case_bool_decide; case_decide; simplify_eq; done.
    + case_bool_decide; [|exact IH].
      case_decide; simplify_eq; done.
Qed.
End MapFacts.

Lemma firstOccurrences_elem (k : string) (l : list string) :
  k ∈ firstOccurrences l ↔ k ∈ l.
Proof.
  induction l as [|x l IH]; simpl; [done|].
  rewrite !elem_of_cons, list_elem_of_filter, IH.
  destruct (decide (k = x)); tauto.
Qed.

Lemma firstOccurrences_snoc (l : list string) (k : string) :
  firstOccurrences (l ++ [k])
  = if decide (k ∈ l) then firstOccurrences l else firstOccurrences l ++ [k].
Proof.
  induction l as [|x l IH]; cbn [firstOccurrences app].
  - case_decide as Hin; [by apply elem_of_nil in Hin | done].
  - rewrite IH. destruct (decide (k ∈ l)) as [Hin|Hout].
    + rewrite decide_True; [done | by right].
    + rewrite filter_app. destruct (decide (k = x)) as [->|Hne].
      * rewrite decide_True by (by left).
        rewrite filter_cons_False by (by intros ?). by rewrite app_nil_r.
      * rewrite decide_False by (intros [?|?]%elem_of_cons; congruence).
        by rewrite filter_cons_True by done.
Qed.

Lemma firstOccurrences_NoDup (l : list string) : NoDup (firstOccurrences l).
Proof.
  induction l as [|x l IH]; simpl; constructor.
  - rewrite list_elem_of_filter. by intros [? _].
  - by apply NoDup_filter.
Qed.

(* ================================================================== *)
(** * The aggregation loop *)

Section Aggregation.
Variable targetWallet : string.
Variable preTokens : list TokenBalance.

Lemma recordTokenChange_spec tokenChanges (postToken : TokenBalance) :
  recordTokenChange targetWallet preTokens tokenChanges postToken
  = if recorded targetWallet preTokens postToken
    then mapSet (mint postToken) (changeOf preTokens postToken) tokenChanges
    else tokenChanges.
Proof.
  unfold recordTokenChange, recorded, changeOf, tokenBalanceChange.
  by destruct (bool_decide (owner postToken = Some targetWallet)),
    (differsFromZero _).
Qed.

(** Entries that are not recorded leave the map alone, so the loop is the
    loop over the recorded entries. *)
Lemma fold_recordTokenChange (postTokens : list TokenBalance) tokenChanges :
  fold_left (recordTokenChange targetWallet preTokens) postTokens tokenChanges
  = fold_left (fun acc p => mapSet (mint p) (changeOf preTokens p) acc)
      (filter (fun p => recorded targetWallet preTokens p = true) postTokens)
      tokenChanges.
Proof.
  revert tokenChanges.
  induction postTokens as [|p ps IH]; intros acc; [done|].
  cbn [fold_left]. rewrite IH, recordTokenChange_spec.
  destruct (recorded targetWallet preTokens p) eqn:Hr.
  - by rewrite filter_cons_True by done.
  - by rewrite filter_cons_False by (by rewrite Hr).
Qed.

Lemma setAll_snoc entries (p : TokenBalance) :
  setAll preTokens (entries ++ [p]) = mapSet (mint p) (changeOf preTokens p) (setAll preTokens entries).
Proof. unfold setAll. by rewrite fold_left_app. Qed.

(** The keys stand in the order of their first insertion. *)
Lemma setAll_keys entries :
  map fst (setAll preTokens entries) = firstOccurrences (map mint entries).
Proof.
  induction entries as [|p entries IH] using rev_ind; [done|].
  rewrite setAll_snoc, mapSet_keys, IH, map_app. cbn [map].
  rewrite firstOccurrences_snoc. destruct (decide (mint p ∈ map mint entries)) as [Hin|Hout].
  - rewrite decide_True; [done | by apply firstOccurrences_elem].
  - rewrite decide_False; [done | by rewrite firstOccurrences_elem].
Qed.

(** The value under a key is the one of the last entry with that key. *)
Lemma setAll_lookup entries (key : string) :
  mapGet key (setAll preTokens entries)
  = changeOf preTokens <$> last (filter (fun p => mint p = key) entries).
Proof.
  induction entries as [|p entries IH] using rev_ind; [done|].
  rewrite setAll_snoc, mapGet_mapSet, filter_app.
  destruct (decide (key = mint p)) as [->|Hne].
  - rewrite filter_cons_True by done. by rewrite filter_nil, last_snoc.
  - rewrite filter_cons_False by congruence. by rewrite filter_nil, app_nil_r.
Qed.

(** Every value of the map keeps its key in its [mint] field. *)
Lemma setAll_owned entries (key : string) :
  key ∈ map fst (setAll preTokens entries) → ∃ p, p ∈ entries ∧ mint p = key.
Proof.
  rewrite setAll_keys, firstOccurrences_elem, list_elem_of_fmap.
  intros (p & -> & Hp). eauto.
Qed.
End Aggregation.

Lemma aggregateTokenChanges_setAll (targetWallet : string)
    (m : ParsedTransactionMeta) :
  aggregateTokenChanges targetWallet m
  = setAll (default [] (preTokenBalances m)) (recordedEntries targetWallet m).
Proof. unfold aggregateTokenChanges. by rewrite fold_recordTokenChange. Qed.

(* ================================================================== *)
(** * What the processor writes *)

Section Console.
Context `{Platform}.
Variable connection : Connection.
Implicit Types w : World.

(** A call of the resolver returns, and writes no delta line. *)
Lemma fetch_run (mintAddress : string) w :
  ∃ tokenData w' errors,
    fetchTokenNameAndDecimals connection mintAddress w = (Returned tokenData, w')
    ∧ console w' = console w ++ errors
    ∧ omap solLineDelta errors = []
    ∧ omap tokenLineDelta errors = [].
Proof.
  destruct (tokenMetadataCache w !! mintAddress) as [cached|] eqn:Hc.
  { exists cached, w, []. rewrite app_nil_r. by rewrite (fetch_hit _ _ _ cached). }
  destruct (resolution_decided connection mintAddress (accountFetches w))
    as [Hf|[tokenData Hs]].
  - destruct (fetch_miss_fails connection mintAddress w Hc Hf)
      as (w' & Hrun & _ & _ & _ & [Hsame|[e Herr]]).
    + exists UNKNOWN_TOKEN, w', []. by rewrite app_nil_r.
    + by exists UNKNOWN_TOKEN, w', [ErrorFetchingMetaplexMetadata mintAddress e].
  - rewrite (fetch_miss_succeeds connection mintAddress w tokenData Hc Hs).
    eexists tokenData, _, []. cbn. by rewrite app_nil_r.
Qed.

(** The log loop writes the deltas of the map in its order, up to the entry,
    if any, whose precision [toFixed] refuses; it writes no native line. *)
Lemma logTokenChanges_lines (entries : list (string * TokenChange)) w result w' :
  logTokenChanges connection entries w = (result, w') →
  ∃ lines,
    console w' = console w ++ lines
    ∧ omap solLineDelta lines = []
    ∧ omap tokenLineDelta lines `prefix_of` map reportOf entries
    ∧ (result = Returned tt →
       omap tokenLineDelta lines = map reportOf entries).
Proof.
  revert w. induction entries as [|[mintKey tc] rest IH]; intros w Hrun.
  { injection Hrun as <- <-. exists []. by rewrite app_nil_r. }
  cbn [logTokenChanges] in Hrun. unfold mbind at 1, Task_bind at 1 in Hrun.
  destruct (fetch_run mintKey w) as (md & w1 & errors & Hf & Hc1 & Hs1 & Ht1).
  rewrite Hf in Hrun.
  unfold mbind at 1, Task_bind at 1, lift, toFixed in Hrun.
  destruct (decimals md <=? 100)%N.
  - unfold mbind at 1, Task_bind at 1, consoleWrite in Hrun.
    destruct (IH _ Hrun) as (lines & Hc2 & Hs2 & Hp2 & Hr2).
    cbn [console] in Hc2.
    exists (errors ++ LogToken (name md) mintKey (actionOf (change tc))
                        (mkFixedText (abs (change tc)) (decimals md))
                        (symbol md) :: lines).
    split_and!.
    + rewrite Hc2, Hc1. by rewrite <- !app_assoc.
    + rewrite omap_app, Hs1. exact Hs2.
    + rewrite omap_app, Ht1.
      exact (prefix_cons (reportOf (mintKey, tc)) _ _ Hp2).
    + intros Hret. rewrite omap_app, Ht1.
      change (reportOf (mintKey, tc) :: omap tokenLineDelta lines
              = reportOf (mintKey, tc) :: map reportOf rest).
      f_equal. by apply Hr2.
  - injection Hrun as <- <-. exists errors. split_and!; try done.
    rewrite Ht1. apply prefix_nil.
Qed.

Lemma logSolChange_run (solChange : float) w :
  logSolChange solChange w
  = (Returned tt,
     mkWorld (tokenMetadataCache w) (console w ++ nativeLines solChange)
             (accountFetches w) (transactionFetches w)).
Proof.
  unfold logSolChange, nativeLines.
  destruct (differsFromZero solChange); [done|].
  cbn. rewrite app_nil_r. by destruct w.
Qed.

(** With the balance-change section present, the processor writes the
    opening line, the native line if the native change differs from 0, and
    then the token deltas of the map, in its order. *)
Lemma processTransactionForTrades_lines (m : ParsedTransactionMeta)
    (targetWallet : string) w result w' :
  processTransactionForTrades (mkTx (Some m)) connection targetWallet w
  = (result, w') →
  ∃ lines,
    console w' = console w ++ LogProcessingTransaction
                              :: nativeLines (solBalanceChange m) ++ lines
    ∧ omap solLineDelta lines = []
    ∧ omap tokenLineDelta lines
      `prefix_of` map reportOf (aggregateTokenChanges targetWallet m)
    ∧ (result = Returned tt →
       omap tokenLineDelta lines
       = map reportOf (aggregateTokenChanges targetWallet m)).
Proof.
  unfold processTransactionForTrades. cbn [meta].
  unfold mbind at 1, Task_bind at 1, consoleWrite.
  run_bind. rewrite logSolChange_run.
  run_bind.
  destruct (logTokenChanges connection _ _) as [[[]|e] w2] eqn:Hrun;
    intros [= <- <-];
    destruct (logTokenChanges_lines _ _ _ _ Hrun) as (lines & Hc & Hs & Hp & Hr);
    cbn [console] in Hc.
  - exists (lines ++ [LogBlank]). cbn [console]. rewrite Hc. split_and!.
    + by rewrite <- !app_assoc.
    + by rewrite omap_app, Hs.
    + rewrite omap_app. cbn. by rewrite app_nil_r.
    + intros _. rewrite omap_app. cbn. rewrite app_nil_r. by apply Hr.
  - exists lines. rewrite Hc. split_and!; try done.
    by rewrite <- !app_assoc.
Qed.

(** Processing a transaction keeps the cache made of decoded records: from
    the empty cache on, the fallback is never a stored value. *)
Lemma logTokenChanges_preserves_decoded
    (entries : list (string * TokenChange)) w :
  CacheDecoded w →
  CacheDecoded (snd (logTokenChanges connection entries w)).
Proof.
  revert w. induction entries as [|[mintKey tc] rest IH]; intros w Hinv;
    [done|].
  cbn [logTokenChanges]. run_bind.
  pose proof (fetch_preserves_decoded connection mintKey w Hinv) as Hinv1.
  destruct (fetchTokenNameAndDecimals connection mintKey w) as [[md|e] w1];
    [|done].
  unfold mbind at 1, Task_bind at 1, lift, toFixed.
  destruct (decimals md <=? 100)%N; [|done].
  unfold mbind at 1, Task_bind at 1, consoleWrite. by apply IH.
Qed.

Lemma processTransaction_preserves_decoded (signature targetWallet : string) w :
  CacheDecoded w →
  CacheDecoded (snd (processTransaction signature connection targetWallet w)).
Proof.
  intros Hinv.
  unfold processTransaction, awaitGetParsedTransaction.
  run_bind.
  destruct (getParsedTransaction connection (transactionFetches w) signature)
    as [[[[m|]]|]|e]; try done.
  unfold processTransactionForTrades. cbn [meta].
  unfold mbind at 1, Task_bind at 1, consoleWrite.
  run_bind. rewrite logSolChange_run.
  run_bind.
  set (w1 := mkWorld _ _ _ _).
  pose proof (logTokenChanges_preserves_decoded
                (aggregateTokenChanges targetWallet m) w1 Hinv) as Hinv1.
  by destruct (logTokenChanges connection _ w1) as [[[]|e] w2].
Qed.

End Console.

(* ================================================================== *)
(** * Token deltas: overwriting and order (C5), ownership (C6) *)

(** C5 (amended): the keys of the map stand in the order in which the
    recorded entries (owned by the tracked wallet, with a change other than 0)
    first insert them; the change kept for an identifier is that of the last
    recorded entry with that identifier; and the token deltas are written in
    the order of the map, all of them when the processor returns. *)
Theorem tokenChanges_last_recorded_entry_wins `{Platform}
    (connection : Connection) (m : ParsedTransactionMeta)
    (targetWallet : string) (w : World) :
  map fst (aggregateTokenChanges targetWallet m)
  = firstOccurrences (map mint (recordedEntries targetWallet m))
  ∧ (∀ key,
       mapGet key (aggregateTokenChanges targetWallet m)
       = changeOf (default [] (preTokenBalances m))
         <$> last (filter (fun p => mint p = key)
                          (recordedEntries targetWallet m)))
  ∧ ∃ lines,
      console (snd (processTransactionForTrades (mkTx (Some m)) connection
                      targetWallet w))
      = console w ++ lines
      ∧ omap tokenLineDelta lines
        `prefix_of` map reportOf (aggregateTokenChanges targetWallet m)
      ∧ (fst (processTransactionForTrades (mkTx (Some m)) connection
                targetWallet w) = Returned tt →
         omap tokenLineDelta lines
         = map reportOf (aggregateTokenChanges targetWallet m)).
Proof.
  split_and!.
  - rewrite aggregateTokenChanges_setAll. apply setAll_keys.
  - intros key. rewrite aggregateTokenChanges_setAll. apply setAll_lookup.
  - destruct (processTransactionForTrades _ _ _ _) as [result w'] eqn:Hrun.
    destruct (processTransactionForTrades_lines _ _ _ _ _ _ Hrun)
      as (lines & Hc & Hs & Hp & Hr).
    exists (LogProcessingTransaction
            :: nativeLines (solBalanceChange m) ++ lines).
    assert (omap tokenLineDelta
              (LogProcessingTransaction
               :: nativeLines (solBalanceChange m) ++ lines)
            = omap tokenLineDelta lines) as ->.
    { cbn. rewrite omap_app. unfold nativeLines.
      by destruct (differsFromZero _). }
    by split_and!.
Qed.

(** C5 (as stated) fails when the later entry did not change: of the two
    accounts of the wallet that hold X, the first changes by 5 and the last by
    0, and the change reported for X is 5. *)
Lemma tokenChanges_later_unchanged_entry_keeps_earlier :
  aggregateTokenChanges wallet splitHolding = [("X", mkTokenChange 5 "X")]
  ∧ last (default [] (postTokenBalances splitHolding))
    = Some (tokenEntry 2 "X" wallet 3)
  ∧ tokenBalanceChange (default [] (preTokenBalances splitHolding))
      (tokenEntry 2 "X" wallet 3) = 0%float
  ∧ omap tokenLineDelta
      (console (snd (@processTransactionForTrades demoPlatform
                       (mkTx (Some splitHolding)) emptyStore wallet emptyWorld)))
    = [("X", Bought, 5%float)].
Proof. repeat split. Qed.

(** The scenario of the specification: both accounts change, and the change
    of the later one, -0.5, is the one reported. *)
Example tokenChanges_two_accounts :
  omap tokenLineDelta
    (console (snd (@processTransactionForTrades demoPlatform
                     (mkTx (Some twoAccounts)) emptyStore wallet emptyWorld)))
  = [("X", Sold, 0.5%float)].
Proof. reflexivity. Qed.

(** C6: every token delta the processor writes is for an identifier that some
    post-state entry owned by the tracked wallet carries; an identifier that
    no such entry carries gets no delta, whatever the entries of other
    wallets say. *)
Theorem tokenDeltas_only_for_tracked_wallet `{Platform}
    (connection : Connection) (tx : ParsedTransactionWithMeta)
    (targetWallet : string) (w : World) :
  ∃ lines,
    console (snd (processTransactionForTrades tx connection targetWallet w))
    = console w ++ lines
    ∧ (∀ delta, delta ∈ omap tokenLineDelta lines →
         ∃ m p, meta tx = Some m
                ∧ p ∈ default [] (postTokenBalances m)
                ∧ owner p = Some targetWallet
                ∧ mint p = fst (fst delta))
    ∧ (∀ key,
         (∀ m p, meta tx = Some m → p ∈ default [] (postTokenBalances m) →
                 owner p = Some targetWallet → mint p ≠ key) →
         ∀ delta, delta ∈ omap tokenLineDelta lines → fst (fst delta) ≠ key).
Proof.
  assert (∃ lines,
    console (snd (processTransactionForTrades tx connection targetWallet w))
    = console w ++ lines
    ∧ (∀ delta, delta ∈ omap tokenLineDelta lines →
         ∃ m p, meta tx = Some m
                ∧ p ∈ default [] (postTokenBalances m)
                ∧ owner p = Some targetWallet
                ∧ mint p = fst (fst delta))) as (lines & Hc & Hown).
  { destruct tx as [[m|]].
    - destruct (processTransactionForTrades _ _ _ _) as [result w'] eqn:Hrun.
      destruct (processTransactionForTrades_lines _ _ _ _ _ _ Hrun)
        as (lines & Hc & Hs & [rest Hp] & _).
      exists (LogProcessingTransaction
              :: nativeLines (solBalanceChange m) ++ lines).
      split; [exact Hc|]. intros delta Hin.
      assert (delta ∈ omap tokenLineDelta lines) as Hin'.
      { revert Hin. cbn. rewrite omap_app. unfold nativeLines.
        by destruct (differsFromZero _). }
      assert (delta ∈ map reportOf (aggregateTokenChanges targetWallet m))
        as Hagg by (rewrite Hp; apply elem_of_app; by left).
      apply list_elem_of_fmap in Hagg as ([key tc] & -> & Hentry).
      assert (key ∈ map fst (aggregateTokenChanges targetWallet m)) as Hkey.
      { apply list_elem_of_fmap. by exists (key, tc). }
      rewrite aggregateTokenChanges_setAll in Hkey.
      apply setAll_owned in Hkey as (p & Hp' & Hmint).
      apply list_elem_of_filter in Hp' as [Hrec Hpost].
      apply andb_true_iff in Hrec as [Hown%bool_decide_eq_true _].
      by exists m, p.
    - exists [ErrorTransactionMetaNotAvailable]. split; [done|].
      intros delta Hin. by apply elem_of_nil in Hin. }
  exists lines. split_and!; [done..|].
  intros key Hnone delta Hin Hkey.
  destruct (Hown delta Hin) as (m & p & Hm & Hp & Ho & Hmint).
  apply (Hnone m p Hm Hp Ho). congruence.
Qed.

(** In [twoAccounts] the entry of the other wallet for Y changes by 2, and no
    delta is written for Y. *)
Example tokenDeltas_other_wallet_ignored :
  tokenBalanceChange (default [] (preTokenBalances twoAccounts))
    (tokenEntry 5 "Y" "Other" 9) = 2%float
  ∧ "Y" ∉ map (fun delta => fst (fst delta))
            (omap tokenLineDelta
               (console (snd (@processTransactionForTrades demoPlatform
                                (mkTx (Some twoAccounts)) emptyStore wallet
                                emptyWorld)))).
Proof.
  split; [reflexivity|]. cbn. intros [?|?%elem_of_nil]%elem_of_cons; done.
Qed.

(* ================================================================== *)
(** * The native delta (C7) *)

(** A finite binary64 number is a zero or a signed mantissa with exponent. *)
Lemma is_finite_Prim2SF (x : float) :
  is_finite x = true →
  (∃ s, Prim2SF x = S754_zero s) ∨ ∃ s m e, Prim2SF x = S754_finite s m e.
Proof.
  unfold is_finite, is_nan, is_infinity.
  rewrite !FloatAxioms.eqb_spec, abs_spec.
  destruct (Prim2SF x) as [s|s| |s m e] eqn:E; eauto.
  - destruct s; cbn; discriminate.
  - cbn. discriminate.
Qed.

(** A finite number minus itself is 0. *)
Lemma sub_diag_finite (x : float) :
  is_finite x = true → (x - x =? 0)%float = true.
Proof.
  intros Hx. rewrite FloatAxioms.eqb_spec, sub_spec.
  destruct (is_finite_Prim2SF x Hx) as [[s ->]|(s & m & e & ->)].
  - by destruct s.
  - unfold SF64sub, SFsub. rewrite Z.sub_diag. reflexivity.
Qed.

(** C7 (amended): with the balance-change section present, the native delta
    is the binary64 difference of the two converted balances,
    [post[0] / 1e9 - pre[0] / 1e9]; the native line is the only native line
    written and it is written exactly when that difference is not 0; and when
    the two balances are the same finite number, no native line is written. *)
Theorem nativeDelta_of_converted_balances `{Platform}
    (connection : Connection) (m : ParsedTransactionMeta)
    (targetWallet : string) (w : World) :
  solBalanceChange m
  = (firstBalance (postBalances m) / 1e9 - firstBalance (preBalances m) / 1e9)%float
  ∧ (∃ lines,
       console (snd (processTransactionForTrades (mkTx (Some m)) connection
                       targetWallet w))
       = console w ++ lines
       ∧ omap solLineDelta lines
         = if differsFromZero (solBalanceChange m)
           then [(actionOf (solBalanceChange m),
                  mkFixedText (abs (solBalanceChange m)) 9)]
           else [])
  ∧ (firstBalance (preBalances m) = firstBalance (postBalances m) →
     is_finite (firstBalance (preBalances m) / 1e9) = true →
     differsFromZero (solBalanceChange m) = false).
Proof.
  split_and!.
  - reflexivity.
  - destruct (processTransactionForTrades _ _ _ _) as [result w'] eqn:Hrun.
    destruct (processTransactionForTrades_lines _ _ _ _ _ _ Hrun)
      as (lines & Hc & Hs & _).
    exists (LogProcessingTransaction
            :: nativeLines (solBalanceChange m) ++ lines).
    split; [exact Hc|]. cbn. rewrite omap_app, Hs, app_nil_r.
    unfold nativeLines. by destruct (differsFromZero _).
  - intros Heq Hfin. unfold solBalanceChange, differsFromZero.
    rewrite <- Heq. by rewrite sub_diag_finite.
Qed.

Lemma nativeDelta_of_converted_balances_witness :
  differsFromZero (solBalanceChange unchangedBalance) = false.
Proof.
  apply (proj2 (proj2 (@nativeDelta_of_converted_balances demoPlatform
                         emptyStore unchangedBalance wallet emptyWorld)));
    reflexivity.
Defined.

(** C7 (as stated) fails in binary64. From one lamport to three, the delta the
    code computes is not [(post[0] - pre[0]) / 1e9]. And for two balances one
    lamport apart, the two quotients are the same number: the difference of
    the balances divided by 1e9 is not 0, yet no native line is written. *)
Lemma nativeDelta_not_difference_divided :
  (solBalanceChange twoLamports =? (3 - 1) / 1e9)%float = false
  ∧ differsFromZero ((9000000000000002 - 9000000000000001) / 1e9)%float = true
  ∧ solBalanceChange oneLamportApart = 0%float
  ∧ console (snd (@processTransactionForTrades demoPlatform
                    (mkTx (Some oneLamportApart)) emptyStore wallet emptyWorld))
    = [LogProcessingTransaction; LogBlank].
Proof. repeat split. Qed.

(** The scenario of the specification: from 2_000_000_000 to 1_500_000_000
    lamports, the line is "Sold", with 0.5 rendered to nine places. *)
Example nativeDelta_scenario :
  omap solLineDelta
    (console (snd (@processTransactionForTrades demoPlatform
                     (mkTx (Some twoAccounts)) emptyStore wallet emptyWorld)))
  = [(Sold, mkFixedText 0.5 9)].
Proof. reflexivity. Qed.

(* ================================================================== *)
(** * The transaction processor on a missing transaction (C9) *)

(** C9: when the transaction fetch returns absent, the processor writes the
    "Transaction not found" error and nothing else; when the transaction is
    found without its balance-change section, it writes the "Transaction meta
    not available" error and nothing else. In both cases it returns, and
    neither the cache nor the account store is touched. *)
Theorem processTransaction_missing `{Platform}
    (connection : Connection) (signature targetWallet : string) (w : World) :
  (getParsedTransaction connection (transactionFetches w) signature
   = Returned None →
   processTransaction signature connection targetWallet w
   = (Returned tt,
      mkWorld (tokenMetadataCache w)
              (console w ++ [ErrorTransactionNotFound signature])
              (accountFetches w) (S (transactionFetches w))))
  ∧ (∀ tx,
       getParsedTransaction connection (transactionFetches w) signature
       = Returned (Some tx) →
       meta tx = None →
       processTransaction signature connection targetWallet w
       = (Returned tt,
          mkWorld (tokenMetadataCache w)
                  (console w ++ [ErrorTransactionMetaNotAvailable])
                  (accountFetches w) (S (transactionFetches w)))).
Proof.
  unfold processTransaction, awaitGetParsedTransaction, mbind, Task_bind.
  split.
  - by intros ->.
  - intros tx -> Hmeta. unfold processTransactionForTrades. by rewrite Hmeta.
Qed.

Lemma processTransaction_missing_witness :
  @processTransaction demoPlatform "sig0" metaLessStore wallet emptyWorld
  = (Returned tt, mkWorld ∅ [ErrorTransactionNotFound "sig0"] 0 1)
  ∧ @processTransaction demoPlatform "sig1" metaLessStore wallet emptyWorld
    = (Returned tt, mkWorld ∅ [ErrorTransactionMetaNotAvailable] 0 1).
Proof.
  split.
  - apply (proj1 (@processTransaction_missing demoPlatform metaLessStore
                    "sig0" wallet emptyWorld)).
    reflexivity.
  - apply (proj2 (@processTransaction_missing demoPlatform metaLessStore
                    "sig1" wallet emptyWorld) (mkTx None));
      reflexivity.
Defined.


(* ================================================================== *)
(** * More on the decoder *)

Lemma dropN_add_app {A : Type} (l1 l2 : list A) (n k : N) :
  n = N.of_nat (length l1) → dropN (n + k) (l1 ++ l2) = dropN k l2.
Proof.
  intros ->. induction l1 as [|x l1 IH]; [done|].
  rewrite length_cons, Nat2N.inj_succ, N.add_succ_l. simpl app.
  by rewrite dropN_succ.
Qed.

Lemma readUInt32LE_skip (before rest : Buffer) (n k : N) :
  n = N.of_nat (length before) →
  readUInt32LE (before ++ rest) (n + k) = readUInt32LE rest k.
Proof. intros Hn. unfold readUInt32LE. by rewrite dropN_add_app. Qed.

Lemma bufferSlice_skip (before rest : Buffer) (n a b : N) :
  n = N.of_nat (length before) →
  bufferSlice (before ++ rest) (n + a) (n + b) = bufferSlice rest a b.
Proof.
  intros Hn. unfold bufferSlice. rewrite dropN_add_app by done.
  f_equal. lia.
Qed.

(** What the decoder does with the bytes that follow the header. *)
Lemma decodeMetaplexMetadata_after_header (header rest : Buffer) :
  length header = 65%nat →
  decodeMetaplexMetadata (header ++ rest)
  = (nameLength ← readUInt32LE rest 0;
     symbolLength ← readUInt32LE rest (4 + nameLength);
     mret (mkNameAndSymbol
             (removeNul (Utf8.decode (bufferSlice rest 4 (4 + nameLength))))
             (removeNul (Utf8.decode
                (bufferSlice rest (4 + nameLength + 4)
                   (4 + nameLength + 4 + symbolLength)))))).
Proof.
  intros Hh. unfold decodeMetaplexMetadata.
  change (1 + 32 + 32)%N with (65 + 0)%N.
  rewrite (readUInt32LE_skip header rest 65 0) by (rewrite Hh; reflexivity).
  destruct (readUInt32LE rest 0) as [L1|e]; [|done]. cbn [mbind Outcome_bind].
  replace (65 + 0 + 4 + L1)%N with (65 + (4 + L1))%N by lia.
  rewrite (readUInt32LE_skip header rest 65 (4 + L1)) by (rewrite Hh; reflexivity).
  destruct (readUInt32LE rest (4 + L1)) as [L2|e]; [|done].
  cbn [mbind Outcome_bind mret Outcome_ret].
  replace (65 + 0 + 4)%N with (65 + 4)%N by lia.
  replace (65 + (4 + L1) + 4 + L2)%N with (65 + (4 + L1 + 4 + L2))%N by lia.
  replace (65 + (4 + L1) + 4)%N with (65 + (4 + L1 + 4))%N by lia.
  rewrite !(bufferSlice_skip header rest 65) by (rewrite Hh; reflexivity).
  done.
Qed.

(** X1: the decoder never reads the 65 bytes of the header: two accounts that
    differ in their headers only decode alike, well formed or not. *)
Theorem decodeMetaplexMetadata_header_ignored (header1 header2 rest : Buffer) :
  length header1 = 65%nat → length header2 = 65%nat →
  decodeMetaplexMetadata (header1 ++ rest)
  = decodeMetaplexMetadata (header2 ++ rest).
Proof.
  intros H1 H2. by rewrite !decodeMetaplexMetadata_after_header.
Qed.

Lemma decodeMetaplexMetadata_header_ignored_witness :
  decodeMetaplexMetadata
    (sampleHeader ++ u32le 1 ++ ["A"]%byte ++ u32le 1 ++ ["B"]%byte)
  = decodeMetaplexMetadata
      (repeat xff 65 ++ u32le 1 ++ ["A"]%byte ++ u32le 1 ++ ["B"]%byte).
Proof.
  apply (decodeMetaplexMetadata_header_ignored sampleHeader (repeat xff 65));
    reflexivity.
Defined.

Lemma decodeMetaplexMetadata_returned (data : Buffer) (r : NameAndSymbol) :
  decodeMetaplexMetadata data = Returned r →
  ∃ L1 L2,
    readUInt32LE data 65 = Returned L1
    ∧ readUInt32LE data (69 + L1) = Returned L2
    ∧ decoded_name r
      = removeNul (Utf8.decode (bufferSlice data 69 (69 + L1)))
    ∧ decoded_symbol r
      = removeNul (Utf8.decode
                     (bufferSlice data (69 + L1 + 4) (69 + L1 + 4 + L2))).
Proof.
  unfold decodeMetaplexMetadata. change (1 + 32 + 32)%N with 65%N.
  destruct (readUInt32LE data 65) as [L1|e] eqn:E1; [|done].
  cbn [mbind Outcome_bind]. change (65 + 4)%N with 69%N.
  destruct (readUInt32LE data (69 + L1)) as [L2|e] eqn:E2; [|done].
  cbn [mbind Outcome_bind mret Outcome_ret]. intros [= <-].
  exists L1, L2. split_and!; done.
Qed.

(** X2: whatever the account holds, a decoded name and a decoded symbol hold
    no NUL character. *)
Theorem decodeMetaplexMetadata_no_nul (data : Buffer) (r : NameAndSymbol) :
  decodeMetaplexMetadata data = Returned r →
  (0%N ∉ decoded_name r) ∧ (0%N ∉ decoded_symbol r).
Proof.
  intros (L1 & L2 & _ & _ & -> & ->)%decodeMetaplexMetadata_returned.
  unfold removeNul. split; intros [Hne _]%list_elem_of_filter; done.
Qed.

Lemma decodeMetaplexMetadata_no_nul_witness :
  (0%N ∉ js "AB") ∧ (0%N ∉ js " S").
Proof.
  apply (decodeMetaplexMetadata_no_nul
           (metadataAccount sampleHeader ["A"; x00; "B"]%byte [" "; "S"]%byte [])
           (mkNameAndSymbol (js "AB") (js " S"))).
  reflexivity.
Defined.

Lemma takeN_length {A : Type} (l : list A) (n : N) :
  (N.of_nat (length (takeN n l)) <= n)%N.
Proof.
  revert n. induction l as [|x l IH]; intros n; [simpl; lia|].
  destruct (N.eq_dec n 0%N) as [->|Hn]; [rewrite takeN_0; simpl; lia|].
  replace n with (N.succ (N.pred n)) at 1 by lia.
  rewrite takeN_succ, length_cons. specialize (IH (N.pred n)). lia.
Qed.

Lemma Utf8_lead_length (b : N) :
  length (fst (Utf8.lead b)) + owed (snd (Utf8.lead b)) ≤ 1.
Proof.
  unfold Utf8.lead, owed.
  destruct (b <=? 0x7F)%N; [cbn; lia|].
  destruct (Utf8.between 0xC2 0xDF b); [cbn; lia|].
  destruct (Utf8.between 0xE0 0xEF b); [cbn; lia|].
  destruct (Utf8.between 0xF0 0xF4 b); cbn; lia.
Qed.

Lemma Utf8_step_length (st : Utf8.state) (b : N) :
  length (fst (Utf8.step st b)) + owed (snd (Utf8.step st b)) ≤ 1 + owed st.
Proof.
  pose proof (Utf8_lead_length b) as Hlead. unfold Utf8.step, owed at 2.
  destruct (Utf8.bytes_needed st =? 0)%N eqn:Hneeded; [lia|].
  destruct (Utf8.between _ _ _).
  - destruct (Utf8.bytes_seen st + 1 =? Utf8.bytes_needed st)%N;
      unfold owed; simpl; [lia|]. rewrite Hneeded. lia.
  - destruct (Utf8.lead b) as [out st']. cbn in *. lia.
Qed.

(** The decoder of UTF-8 gives at most one code point per byte, counting the
    replacement owed for a sequence that is still open. *)
Lemma Utf8_run_length (bytes : Buffer) (st : Utf8.state) :
  length (Utf8.run st bytes) ≤ length bytes + owed st.
Proof.
  revert st. induction bytes as [|b bytes IH]; intros st.
  { cbn [Utf8.run]. unfold owed. destruct (_ =? _)%N; simpl; lia. }
  cbn [Utf8.run]. pose proof (Utf8_step_length st (Byte.to_N b)) as Hstep.
  destruct (Utf8.step st (Byte.to_N b)) as [out st']. cbn [fst snd] in Hstep.
  rewrite length_app, length_cons. specialize (IH st'). lia.
Qed.

Lemma Utf8_decode_length (bytes : Buffer) :
  length (Utf8.decode bytes) ≤ length bytes.
Proof.
  unfold Utf8.decode. pose proof (Utf8_run_length bytes Utf8.init) as Hrun.
  unfold owed in Hrun. cbn in Hrun. lia.
Qed.

Lemma field_length (data : Buffer) (start len : N) :
  (N.of_nat (length (removeNul (Utf8.decode
                                  (bufferSlice data start (start + len)))))
   <= len)%N.
Proof.
  unfold removeNul, bufferSlice.
  set (bytes := takeN _ _).
  pose proof (length_filter (fun c : N => c ≠ 0%N) (Utf8.decode bytes)).
  pose proof (Utf8_decode_length bytes).
  pose proof (takeN_length (dropN start data) (start + len - start)).
  fold bytes in H1. lia.
Qed.

(** X3: a decoded name has at most as many characters as the name length the
    account declares, and a decoded symbol at most as many as the symbol
    length it declares. *)
Theorem decodeMetaplexMetadata_length_bound (data : Buffer) (r : NameAndSymbol) :
  decodeMetaplexMetadata data = Returned r →
  ∃ L1 L2,
    readUInt32LE data 65 = Returned L1
    ∧ readUInt32LE data (69 + L1) = Returned L2
    ∧ (N.of_nat (length (decoded_name r)) <= L1)%N
    ∧ (N.of_nat (length (decoded_symbol r)) <= L2)%N.
Proof.
  intros (L1 & L2 & E1 & E2 & -> & ->)%decodeMetaplexMetadata_returned.
  exists L1, L2. split_and!; [done | done | apply field_length..].
Qed.

Lemma decodeMetaplexMetadata_length_bound_witness :
  ∃ L1 L2,
    readUInt32LE usdCoinAccount 65 = Returned L1
    ∧ readUInt32LE usdCoinAccount (69 + L1) = Returned L2
    ∧ (N.of_nat (length (js "USD Coin")) <= L1)%N
    ∧ (N.of_nat (length (js "USDC")) <= L2)%N.
Proof.
  apply (decodeMetaplexMetadata_length_bound usdCoinAccount
           (mkNameAndSymbol (js "USD Coin") (js "USDC"))).
  reflexivity.
Defined.

(* ================================================================== *)
(** * Trimmed text *)

Lemma removeNul_no_nul (s : JsString) : 0%N ∉ removeNul s.
Proof. unfold removeNul. by intros [Hne _]%list_elem_of_filter. Qed.

Lemma trimStart_suffix (s : JsString) : trimStart s `suffix_of` s.
Proof.
  induction s as [|c s IH]; [done|]. cbn [trimStart].
  destruct (isWhiteSpace c); [by apply suffix_cons_r | done].
Qed.

Lemma trimStart_startsClean (s : JsString) : startsClean (trimStart s).
Proof.
  induction s as [|c s IH]; [done|]. cbn [trimStart].
  by destruct (isWhiteSpace c) eqn:Hc.
Qed.

Lemma startsClean_prefix (p q : JsString) :
  startsClean (p ++ q) → startsClean p.
Proof. by destruct p. Qed.

(** What [trim] leaves is a middle part of the text. *)
Lemma trim_middle (s : JsString) :
  ∃ before after, s = before ++ trim s ++ after.
Proof.
  unfold trim, trimEnd.
  destruct (trimStart_suffix s) as [before Hs].
  destruct (trimStart_suffix (rev (trimStart s))) as [k Hk].
  exists before, (rev k). rewrite Hs at 1. f_equal.
  rewrite <- (rev_involutive (trimStart s)) at 1. rewrite Hk at 1.
  by rewrite rev_app_distr.
Qed.

Lemma trim_startsClean (s : JsString) :
  startsClean (trim s) ∧ startsClean (rev (trim s)).
Proof.
  split.
  - destruct (trimStart_suffix (rev (trimStart s))) as [k Hk].
    apply (startsClean_prefix _ (rev k)). unfold trim, trimEnd.
    rewrite <- rev_app_distr, <- Hk, rev_involutive.
    apply trimStart_startsClean.
  - unfold trim, trimEnd. rewrite rev_involutive. apply trimStart_startsClean.
Qed.

Lemma trim_clean (s : JsString) : 0%N ∉ s → CleanText (trim s).
Proof.
  intros Hs. split; [|apply trim_startsClean].
  destruct (trim_middle s) as (before & after & Heq). intros Hin. apply Hs.
  rewrite Heq, !elem_of_app. auto.
Qed.

Lemma IsDecodedRecord_clean (tokenData : TokenMetadata) :
  IsDecodedRecord tokenData →
  CleanText (name tokenData) ∧ CleanText (symbol tokenData).
Proof.
  intros (account & metadata & precision & Hdec & ->).
  apply decodeMetaplexMetadata_returned in Hdec as (L1 & L2 & _ & _ & Hn & Hs).
  cbn [name symbol]. rewrite Hn, Hs.
  split; apply trim_clean, removeNul_no_nul.
Qed.

Lemma UNKNOWN_TOKEN_clean :
  CleanText (name UNKNOWN_TOKEN) ∧ CleanText (symbol UNKNOWN_TOKEN).
Proof.
  unfold CleanText.
  split_and!; try reflexivity;
    intros Hin%list_elem_of_In; cbn in Hin; intuition discriminate.
Qed.

(* ================================================================== *)
(** * More on the resolver *)

Section ResolverCost.
Context `{Platform}.
Variable connection : Connection.
Variable mintAddress : string.
Implicit Types w : World.

(** What a failed resolution costs and writes. *)
Lemma fetch_miss_fails_world w :
  tokenMetadataCache w !! mintAddress = None →
  ResolutionFails connection mintAddress (accountFetches w) →
  ∃ (k : nat) (errors : list ConsoleLine),
    fetchTokenNameAndDecimals connection mintAddress w
    = (Returned UNKNOWN_TOKEN,
       mkWorld (tokenMetadataCache w) (console w ++ errors)
               (k + accountFetches w) (transactionFetches w))
    ∧ k ≤ 2
    ∧ (errors = []
       ∨ ∃ e, errors = [ErrorFetchingMetaplexMetadata mintAddress e]).
Proof.
  intros Hc Hf. unfold fetchTokenNameAndDecimals. rewrite Hc.
  unfold tryCatch, resolveFromChain, lift, mbind, Task_bind.
  destruct Hf as [e K|key e K D|key derived e K D A|key derived K D A
                 |key derived info e K D A M|key derived info metadata e K D A M P];
    unfold metadataSeeds in *; rewrite ?K, ?D; unfold awaitGetAccountInfo;
    rewrite ?A; cbn [data]; rewrite ?M; rewrite ?fetchMintDecimals_run;
    cbn [accountFetches]; rewrite ?P; cbn.
  - exists 0, [ErrorFetchingMetaplexMetadata mintAddress e].
    split_and!; [reflexivity | lia | eauto].
  - exists 0, [ErrorFetchingMetaplexMetadata mintAddress e].
    split_and!; [reflexivity | lia | eauto].
  - exists 1, [ErrorFetchingMetaplexMetadata mintAddress e].
    split_and!; [reflexivity | lia | eauto].
  - exists 1, []. rewrite app_nil_r.
    split_and!; [reflexivity | lia | eauto].
  - exists 1, [ErrorFetchingMetaplexMetadata mintAddress e].
    split_and!; [reflexivity | lia | eauto].
  - exists 2, [ErrorFetchingMetaplexMetadata mintAddress e].
    split_and!; [reflexivity | lia | eauto].
Qed.

(** Every call, whatever it meets: what it returns, costs, writes and
    stores. *)
Lemma fetch_world w :
  ∃ (tokenData : TokenMetadata) (cache' : gmap string TokenMetadata)
    (k : nat) (errors : list ConsoleLine),
    fetchTokenNameAndDecimals connection mintAddress w
    = (Returned tokenData,
       mkWorld cache' (console w ++ errors)
               (k + accountFetches w) (transactionFetches w))
    ∧ k ≤ 2
    ∧ (errors = []
       ∨ ∃ e, errors = [ErrorFetchingMetaplexMetadata mintAddress e])
    ∧ (cache' = tokenMetadataCache w
       ∨ (tokenMetadataCache w !! mintAddress = None
          ∧ cache' = <[mintAddress := tokenData]> (tokenMetadataCache w))).
Proof.
  destruct (tokenMetadataCache w !! mintAddress) as [cached|] eqn:Hc.
  { exists cached, (tokenMetadataCache w), 0, [].
    rewrite (fetch_hit connection mintAddress w cached Hc), app_nil_r.
    split_and!; [by destruct w | lia | auto..]. }
  destruct (resolution_decided connection mintAddress (accountFetches w))
    as [Hf|[tokenData Hs]].
  - destruct (fetch_miss_fails_world w Hc Hf) as (k & errors & -> & Hk & He).
    exists UNKNOWN_TOKEN, (tokenMetadataCache w), k, errors. auto.
  - rewrite (fetch_miss_succeeds connection mintAddress w tokenData Hc Hs).
    exists tokenData, (<[mintAddress := tokenData]> (tokenMetadataCache w)),
      2, [].
    rewrite app_nil_r. split_and!; [reflexivity | lia | auto..].
Qed.

End ResolverCost.

(** X4: with a cache that holds decoded records only, the name and the
    symbol of every record the resolver returns hold no NUL and neither start
    nor end with white space. *)
Theorem fetchTokenNameAndDecimals_clean_text `{Platform}
    (connection : Connection) (mintAddress : string) (w w' : World)
    (tokenData : TokenMetadata) :
  CacheDecoded w →
  fetchTokenNameAndDecimals connection mintAddress w = (Returned tokenData, w') →
  CleanText (name tokenData) ∧ CleanText (symbol tokenData).
Proof.
  intros Hinv Hrun.
  destruct (tokenMetadataCache w !! mintAddress) as [cached|] eqn:Hc.
  { rewrite (fetch_hit connection mintAddress w cached Hc) in Hrun.
    injection Hrun as <- _. by eapply IsDecodedRecord_clean, Hinv. }
  destruct (resolution_decided connection mintAddress (accountFetches w))
    as [Hf|[md Hs]].
  - destruct (fetch_miss_fails connection mintAddress w Hc Hf) as (w1 & Hrun1 & _).
    rewrite Hrun1 in Hrun. injection Hrun as <- _. apply UNKNOWN_TOKEN_clean.
  - rewrite (fetch_miss_succeeds connection mintAddress w md Hc Hs) in Hrun.
    injection Hrun as <- _.
    by eapply IsDecodedRecord_clean, ResolutionSucceeds_decoded.
Qed.

Lemma fetchTokenNameAndDecimals_clean_text_witness :
  CleanText (name usdc) ∧ CleanText (symbol usdc).
Proof.
  apply (@fetchTokenNameAndDecimals_clean_text demoPlatform usdCoinStore
           "MintX" emptyWorld (mkWorld {[ "MintX" := usdc ]} [] 2 0) usdc).
  - intros key md Hlookup.
    change ((∅ : gmap string TokenMetadata) !! key = Some md) in Hlookup.
    by rewrite lookup_empty in Hlookup.
  - reflexivity.
Defined.

(** X5: a call of the resolver asks the account store at most twice, never
    asks for a transaction, and writes at most one line, an error line for its
    identifier. *)
Theorem fetchTokenNameAndDecimals_cost `{Platform}
    (connection : Connection) (mintAddress : string) (w : World) :
  ∃ tokenData w' errors,
    fetchTokenNameAndDecimals connection mintAddress w = (Returned tokenData, w')
    ∧ accountFetches w ≤ accountFetches w' ≤ accountFetches w + 2
    ∧ transactionFetches w' = transactionFetches w
    ∧ console w' = console w ++ errors
    ∧ (errors = []
       ∨ ∃ e, errors = [ErrorFetchingMetaplexMetadata mintAddress e]).
Proof.
  destruct (fetch_world connection mintAddress w)
    as (tokenData & cache' & k & errors & -> & Hk & He & _).
  eexists tokenData, _, errors. split; [reflexivity|]. cbn. split_and!; auto; lia.
Qed.

(** X6: the resolver only ever adds to the cache: every entry the cache held
    before a call it holds unchanged after it, and no identifier other than
    the one asked for gains an entry. *)
Theorem fetchTokenNameAndDecimals_cache_grows `{Platform}
    (connection : Connection) (mintAddress : string) (w : World) :
  tokenMetadataCache w
  ⊆ tokenMetadataCache (snd (fetchTokenNameAndDecimals connection mintAddress w))
  ∧ ∀ key, key ≠ mintAddress →
      tokenMetadataCache
        (snd (fetchTokenNameAndDecimals connection mintAddress w)) !! key
      = tokenMetadataCache w !! key.
Proof.
  destruct (fetch_world connection mintAddress w)
    as (tokenData & cache' & k & errors & -> & _ & _ & [->|[Hc ->]]);
    cbn [snd tokenMetadataCache].
  - done.
  - split; [by apply insert_subseteq|].
    intros key Hne. by rewrite lookup_insert_ne.
Qed.

Lemma dropN_drop {A : Type} (l : list A) (n : N) :
  dropN n l = drop (N.to_nat n) l.
Proof.
  revert n. induction l as [|x l IH]; intros n; [by rewrite drop_nil|].
  destruct (N.eq_dec n 0%N) as [->|Hn]; [by rewrite dropN_0|].
  replace n with (N.succ (N.pred n)) by lia.
  rewrite dropN_succ, N2Nat.inj_succ, IH. done.
Qed.

Lemma readUInt8_lookup (bytes : Buffer) (offset : nat) :
  readUInt8 bytes (N.of_nat offset)
  = match bytes !! offset with
    | Some b => Returned (Byte.to_N b)
    | None => Thrown RangeError
    end.
Proof.
  unfold readUInt8. rewrite dropN_drop, Nat2N.id.
  replace (bytes !! offset) with (head (drop offset bytes))
    by (by rewrite head_lookup, lookup_drop, Nat.add_0_r).
  by destruct (drop offset bytes).
Qed.

(** X7: the precision lookup asks the account store once. With no mint
    account the precision is 0; with a mint account of at most 44 bytes the
    lookup throws a RangeError; otherwise the precision is the byte at offset
    44, a number below 256. A rejection of the store is passed on. *)
Theorem fetchMintDecimals_outcomes `{Platform}
    (connection : Connection) (mintPublicKey : PublicKey) (w : World) :
  snd (fetchMintDecimals connection mintPublicKey w)
  = mkWorld (tokenMetadataCache w) (console w)
            (S (accountFetches w)) (transactionFetches w)
  ∧ match getAccountInfo connection (accountFetches w) mintPublicKey with
    | Thrown e =>
        fst (fetchMintDecimals connection mintPublicKey w) = Thrown e
    | Returned None =>
        fst (fetchMintDecimals connection mintPublicKey w) = Returned 0%N
    | Returned (Some info) =>
        (length (data info) ≤ 44 →
         fst (fetchMintDecimals connection mintPublicKey w) = Thrown RangeError)
        ∧ (44 < length (data info) →
           ∃ b, data info !! 44%nat = Some b
                ∧ fst (fetchMintDecimals connection mintPublicKey w)
                  = Returned (Byte.to_N b)
                ∧ (Byte.to_N b < 256)%N)
    end.
Proof.
  rewrite fetchMintDecimals_run. split; [done|]. cbn [fst].
  unfold mintDecimalsAt.
  destruct (getAccountInfo connection (accountFetches w) mintPublicKey)
    as [[info|]|e]; try done.
  change 44%N with (N.of_nat 44). rewrite readUInt8_lookup. split.
  - intros Hshort. by rewrite lookup_ge_None_2.
  - intros Hlong. destruct (lookup_lt_is_Some_2 (data info) 44 Hlong) as [b Hb].
    exists b. rewrite Hb. split_and!; [done..|].
    pose proof (Byte.to_N_bounded b). lia.
Qed.

Lemma fetchMintDecimals_outcomes_witness :
  ∃ b, (repeat x00 44 ++ [x06] ++ repeat x00 37) !! 44%nat = Some b
       ∧ fst (@fetchMintDecimals demoPlatform usdCoinStore "MintX" emptyWorld)
         = Returned (Byte.to_N b)
       ∧ (Byte.to_N b < 256)%N.
Proof.
  apply (proj2 (proj2 (@fetchMintDecimals_outcomes demoPlatform usdCoinStore
                         "MintX" emptyWorld))).
  cbn. lia.
Defined.

(** A buffer whose length fields cannot both be read makes the decoder throw
    a RangeError. *)
Lemma decode_thrown_of_missing (account : Buffer) :
  lengthFieldMissing account →
  decodeMetaplexMetadata account = Thrown RangeError.
Proof.
  unfold decodeMetaplexMetadata. change (1 + 32 + 32)%N with 65%N.
  intros [Hshort|(L1 & HL1 & Hshort)].
  - by rewrite (readUInt32LE_thrown account 65) by lia.
  - rewrite HL1. cbn [mbind Outcome_bind]. change (65 + 4)%N with 69%N.
    by rewrite (readUInt32LE_thrown account (69 + L1)) by lia.
Qed.

(** X8: an identifier that is not a key costs no fetch: the resolver writes
    the error line with the error of the key constructor and returns the
    fallback, leaving the cache as it was. *)
Theorem fetchTokenNameAndDecimals_invalid_address `{Platform}
    (connection : Connection) (mintAddress : string) (w : World) (e : JsError) :
  tokenMetadataCache w !! mintAddress = None →
  newPublicKey mintAddress = Thrown e →
  fetchTokenNameAndDecimals connection mintAddress w
  = (Returned UNKNOWN_TOKEN,
     mkWorld (tokenMetadataCache w)
             (console w ++ [ErrorFetchingMetaplexMetadata mintAddress e])
             (accountFetches w) (transactionFetches w)).
Proof.
  intros Hc K. unfold fetchTokenNameAndDecimals. rewrite Hc.
  unfold tryCatch, resolveFromChain, lift, mbind, Task_bind.
  by rewrite K.
Qed.

Lemma fetchTokenNameAndDecimals_invalid_address_witness :
  @fetchTokenNameAndDecimals demoPlatform usdCoinStore "" emptyWorld
  = (Returned (@UNKNOWN_TOKEN),
     mkWorld ∅ [ErrorFetchingMetaplexMetadata "" InvalidPublicKey] 0 0).
Proof.
  apply (@fetchTokenNameAndDecimals_invalid_address demoPlatform usdCoinStore
           "" emptyWorld InvalidPublicKey); reflexivity.
Defined.

(** X9: a metadata account whose length fields cannot both be read costs one
    fetch: the resolver writes the error line with the RangeError, returns the
    fallback, stores nothing, and does not ask for the mint account. *)
Theorem fetchTokenNameAndDecimals_malformed_metadata `{Platform}
    (connection : Connection) (mintAddress : string) (w : World)
    (key : PublicKey) (derived : PublicKey * N) (info : AccountInfo) :
  tokenMetadataCache w !! mintAddress = None →
  newPublicKey mintAddress = Returned key →
  findProgramAddress (metadataSeeds key) METAPLEX_METADATA_PROGRAM
    = Returned derived →
  getAccountInfo connection (accountFetches w) (fst derived)
    = Returned (Some info) →
  lengthFieldMissing (data info) →
  fetchTokenNameAndDecimals connection mintAddress w
  = (Returned UNKNOWN_TOKEN,
     mkWorld (tokenMetadataCache w)
             (console w ++ [ErrorFetchingMetaplexMetadata mintAddress RangeError])
             (S (accountFetches w)) (transactionFetches w)).
Proof.
  intros Hc K D A Hmissing. unfold fetchTokenNameAndDecimals. rewrite Hc.
  unfold tryCatch, resolveFromChain, lift, mbind, Task_bind.
  unfold metadataSeeds in *. rewrite K, D. unfold awaitGetAccountInfo.
  rewrite A. cbn [data]. by rewrite (decode_thrown_of_missing _ Hmissing).
Qed.

Lemma fetchTokenNameAndDecimals_malformed_metadata_witness :
  @fetchTokenNameAndDecimals demoPlatform brokenStore "MintX" emptyWorld
  = (Returned (@UNKNOWN_TOKEN),
     mkWorld ∅ [ErrorFetchingMetaplexMetadata "MintX" RangeError] 1 0).
Proof.
  apply (@fetchTokenNameAndDecimals_malformed_metadata demoPlatform brokenStore
           "MintX" emptyWorld "MintX"
           ("metadatametaqbxxUerdq28cj1RbAWkYQm3ybzjb6a8bt518x1sMintX", 255%N)
           (mkAccountInfo (sampleHeader ++ [x08; x00]%byte)));
    try reflexivity.
  left. cbn. lia.
Defined.

(** X10: a metadata account that decodes is of no use when the mint account
    has at most 44 bytes: after the two fetches the resolver writes the error
    line with the RangeError, returns the fallback and stores nothing. *)
Theorem fetchTokenNameAndDecimals_short_mint_account `{Platform}
    (connection : Connection) (mintAddress : string) (w : World)
    (key : PublicKey) (derived : PublicKey * N) (info mintInfo : AccountInfo)
    (metadata : NameAndSymbol) :
  tokenMetadataCache w !! mintAddress = None →
  newPublicKey mintAddress = Returned key →
  findProgramAddress (metadataSeeds key) METAPLEX_METADATA_PROGRAM
    = Returned derived →
  getAccountInfo connection (accountFetches w) (fst derived)
    = Returned (Some info) →
  decodeMetaplexMetadata (data info) = Returned metadata →
  getAccountInfo connection (S (accountFetches w)) key
    = Returned (Some mintInfo) →
  length (data mintInfo) ≤ 44 →
  fetchTokenNameAndDecimals connection mintAddress w
  = (Returned UNKNOWN_TOKEN,
     mkWorld (tokenMetadataCache w)
             (console w ++ [ErrorFetchingMetaplexMetadata mintAddress RangeError])
             (S (S (accountFetches w))) (transactionFetches w)).
Proof.
  intros Hc K D A M A' Hshort. unfold fetchTokenNameAndDecimals. rewrite Hc.
  unfold tryCatch, resolveFromChain, lift, mbind, Task_bind.
  unfold metadataSeeds in *. rewrite K, D. unfold awaitGetAccountInfo.
  rewrite A. cbn [data]. rewrite M, fetchMintDecimals_run.
  cbn [accountFetches]. unfold mintDecimalsAt. rewrite A'.
  change 44%N with (N.of_nat 44). rewrite readUInt8_lookup.
  by rewrite lookup_ge_None_2.
Qed.

Lemma fetchTokenNameAndDecimals_short_mint_account_witness :
  @fetchTokenNameAndDecimals demoPlatform shortMintStore "MintX" emptyWorld
  = (Returned (@UNKNOWN_TOKEN),
     mkWorld ∅ [ErrorFetchingMetaplexMetadata "MintX" RangeError] 2 0).
Proof.
  apply (@fetchTokenNameAndDecimals_short_mint_account demoPlatform
           shortMintStore "MintX" emptyWorld "MintX"
           ("metadatametaqbxxUerdq28cj1RbAWkYQm3ybzjb6a8bt518x1sMintX", 255%N)
           (mkAccountInfo usdCoinAccount) (mkAccountInfo (repeat x00 44))
           (mkNameAndSymbol (js "USD Coin") (js "USDC")));
    reflexivity.
Defined.

(** X11: after a resolution that succeeded, asking again for the same
    identifier gives the same record and leaves the world alone, whatever the
    store would answer by then. *)
Theorem fetchTokenNameAndDecimals_resolve_then_hit `{Platform}
    (connection later : Connection) (mintAddress : string) (w : World)
    (tokenData : TokenMetadata) :
  tokenMetadataCache w !! mintAddress = None →
  ResolutionSucceeds connection mintAddress (accountFetches w) tokenData →
  fst (fetchTokenNameAndDecimals connection mintAddress w) = Returned tokenData
  ∧ fetchTokenNameAndDecimals later mintAddress
      (snd (fetchTokenNameAndDecimals connection mintAddress w))
    = (Returned tokenData,
       snd (fetchTokenNameAndDecimals connection mintAddress w)).
Proof.
  intros Hc Hs.
  rewrite (fetch_miss_succeeds connection mintAddress w tokenData Hc Hs).
  split; [done|]. apply fetch_hit. cbn. by rewrite lookup_insert_eq.
Qed.

Lemma fetchTokenNameAndDecimals_resolve_then_hit_witness :
  fst (@fetchTokenNameAndDecimals demoPlatform usdCoinStore "MintX" emptyWorld)
  = Returned usdc
  ∧ @fetchTokenNameAndDecimals demoPlatform emptyStore "MintX"
      (snd (@fetchTokenNameAndDecimals demoPlatform usdCoinStore "MintX"
              emptyWorld))
    = (Returned usdc,
       snd (@fetchTokenNameAndDecimals demoPlatform usdCoinStore "MintX"
              emptyWorld)).
Proof.
  apply (@fetchTokenNameAndDecimals_resolve_then_hit demoPlatform usdCoinStore
           emptyStore "MintX" emptyWorld usdc).
  - reflexivity.
  - exact (@Resolved demoPlatform usdCoinStore "MintX" 0 "MintX"
             ("metadatametaqbxxUerdq28cj1RbAWkYQm3ybzjb6a8bt518x1sMintX", 255%N)
             (mkAccountInfo usdCoinAccount)
             (mkNameAndSymbol (js "USD Coin") (js "USDC")) 6%N
             eq_refl eq_refl eq_refl eq_refl eq_refl).
Defined.

(* ================================================================== *)
(** * More on the token deltas *)

Lemma mapSet_elem {V : Type} (key key' : string) (value value' : V)
    (m : list (string * V)) :
  (key, value) ∈ mapSet key' value' m →
  (key, value) = (key', value') ∨ (key, value) ∈ m.
Proof.
  induction m as [|[k v] m IH]; cbn [mapSet].
  - intros ->%list_elem_of_singleton. by left.
  - destruct (decide (k = key')) as [->|Hne].
    + intros [->|Hin]%elem_of_cons; [by left|]. right. by right.
    + intros [->|Hin]%elem_of_cons; [right; by left|].
      destruct (IH Hin) as [?|?]; [by left|]. right. by right.
Qed.

(** Every entry of the map comes from one of the entries that were set. *)
Lemma setAll_elem (preTokens entries : list TokenBalance) (key : string)
    (tc : TokenChange) :
  (key, tc) ∈ setAll preTokens entries →
  ∃ p, p ∈ entries ∧ key = mint p ∧ tc = changeOf preTokens p.
Proof.
  induction entries as [|p entries IH] using rev_ind.
  { by intros ?%elem_of_nil. }
  rewrite setAll_snoc. intros [[= -> ->]|Hin]%mapSet_elem.
  - exists p. split_and!; [|done..]. apply elem_of_app. right. by left.
  - destruct (IH Hin) as (q & Hq & -> & ->).
    exists q. split_and!; [|done..]. apply elem_of_app. by left.
Qed.

Lemma aggregateTokenChanges_elem (targetWallet : string)
    (m : ParsedTransactionMeta) (key : string) (tc : TokenChange) :
  (key, tc) ∈ aggregateTokenChanges targetWallet m →
  ∃ p, p ∈ default [] (postTokenBalances m)
       ∧ owner p = Some targetWallet
       ∧ key = mint p
       ∧ change tc = tokenBalanceChange (default [] (preTokenBalances m)) p
       ∧ differsFromZero (change tc) = true.
Proof.
  rewrite aggregateTokenChanges_setAll.
  intros (p & Hp & -> & ->)%setAll_elem.
  apply list_elem_of_filter in Hp as [Hrec Hpost].
  apply andb_true_iff in Hrec as [Hown%bool_decide_eq_true Hnz].
  by exists p.
Qed.

Lemma aggregateTokenChanges_NoDup (targetWallet : string)
    (m : ParsedTransactionMeta) :
  NoDup (map fst (aggregateTokenChanges targetWallet m)).
Proof.
  rewrite aggregateTokenChanges_setAll, setAll_keys.
  apply firstOccurrences_NoDup.
Qed.

(** The absolute value of a number is 0 exactly when the number is. *)
Lemma differsFromZero_abs (x : float) :
  differsFromZero (abs x) = differsFromZero x.
Proof.
  unfold differsFromZero. f_equal.
  rewrite !FloatAxioms.eqb_spec, abs_spec.
  by destruct (Prim2SF x) as [[]|[]| |[] m e].
Qed.

(** The lines a run writes, whether the transaction has its balance-change
    section or not. *)
Lemma processTransactionForTrades_written `{Platform}
    (connection : Connection) (tx : ParsedTransactionWithMeta)
    (targetWallet : string) (w : World) :
  ∃ lines,
    console (snd (processTransactionForTrades tx connection targetWallet w))
    = console w ++ lines
    ∧ ∃ reported rest,
        omap tokenLineDelta lines = map reportOf reported
        ∧ match meta tx with
          | Some m => aggregateTokenChanges targetWallet m = reported ++ rest
          | None => reported = []
          end.
Proof.
  destruct tx as [[m|]].
  - destruct (processTransactionForTrades _ _ _ _) as [result w'] eqn:Hrun.
    destruct (processTransactionForTrades_lines _ _ _ _ _ _ Hrun)
      as (lines & Hc & Hs & Hp & _).
    exists (LogProcessingTransaction
            :: nativeLines (solBalanceChange m) ++ lines).
    split; [exact Hc|].
    assert (omap tokenLineDelta
              (LogProcessingTransaction
               :: nativeLines (solBalanceChange m) ++ lines)
            = omap tokenLineDelta lines) as ->.
    { cbn. rewrite omap_app. unfold nativeLines.
      by destruct (differsFromZero _). }
    destruct Hp as [tail Hp].
    exists (take (length (omap tokenLineDelta lines))
                 (aggregateTokenChanges targetWallet m)),
           (drop (length (omap tokenLineDelta lines))
                 (aggregateTokenChanges targetWallet m)).
    cbn [meta]. rewrite take_drop. split; [|done].
    rewrite <- firstn_map, Hp. by rewrite take_app_length.
  - exists [ErrorTransactionMetaNotAvailable]. split; [done|].
    by exists [], [].
Qed.

(** X12: a run of the processor writes at most one token line per asset
    identifier. *)
Theorem tokenLines_one_per_asset `{Platform}
    (connection : Connection) (tx : ParsedTransactionWithMeta)
    (targetWallet : string) (w : World) :
  ∃ lines,
    console (snd (processTransactionForTrades tx connection targetWallet w))
    = console w ++ lines
    ∧ NoDup (map (fun delta => fst (fst delta)) (omap tokenLineDelta lines)).
Proof.
  destruct (processTransactionForTrades_written connection tx targetWallet w)
    as (lines & Hc & reported & rest & Hlines & Hagg).
  exists lines. split; [exact Hc|].
  rewrite Hlines, map_map. change (map (fun x => (reportOf x).1.1) reported)
    with (map fst reported).
  destruct (meta tx) as [m|]; [|by subst; constructor].
  pose proof (aggregateTokenChanges_NoDup targetWallet m) as Hnd.
  rewrite Hagg, map_app in Hnd. by apply NoDup_app in Hnd as [Hnd _].
Qed.

(** X13: every token line a run writes is for a change other than 0: the
    amount it prints is the absolute value of the non-zero change of a
    post-state entry of the tracked wallet that carries the identifier, and
    the line says "Bought" exactly when that change is above 0. *)
Theorem tokenLines_nonzero `{Platform}
    (connection : Connection) (tx : ParsedTransactionWithMeta)
    (targetWallet : string) (w : World) :
  ∃ lines,
    console (snd (processTransactionForTrades tx connection targetWallet w))
    = console w ++ lines
    ∧ ∀ key action amount,
        (key, action, amount) ∈ omap tokenLineDelta lines →
        differsFromZero amount = true
        ∧ ∃ m p,
            meta tx = Some m
            ∧ p ∈ default [] (postTokenBalances m)
            ∧ owner p = Some targetWallet
            ∧ mint p = key
            ∧ amount = abs (tokenBalanceChange
                              (default [] (preTokenBalances m)) p)
            ∧ action = actionOf (tokenBalanceChange
                                   (default [] (preTokenBalances m)) p).
Proof.
  destruct (processTransactionForTrades_written connection tx targetWallet w)
    as (lines & Hc & reported & rest & Hlines & Hagg).
  exists lines. split; [exact Hc|]. intros key action amount Hin.
  rewrite Hlines in Hin.
  apply list_elem_of_fmap in Hin as ([k tc] & [= -> -> ->] & Hentry).
  destruct (meta tx) as [m|]; [|subst; by apply elem_of_nil in Hentry].
  assert ((k, tc) ∈ aggregateTokenChanges targetWallet m) as Hin'
    by (rewrite Hagg; apply elem_of_app; by left).
  apply aggregateTokenChanges_elem in Hin'
    as (p & Hp & Hown & -> & Hchange & Hnz).
  cbn [fst snd]. split; [by rewrite differsFromZero_abs|].
  exists m, p. rewrite Hchange. by split_and!.
Qed.

(** Subtracting 0 changes nothing. *)
Lemma sub_zero_r (x : float) : (x - 0)%float = x.
Proof.
  apply Prim2SF_inj. rewrite sub_spec.
  change (Prim2SF 0) with (S754_zero false).
  by destruct (Prim2SF x) as [[]|[]| |[] m e].
Qed.

Lemma find_none {A : Type} (f : A → bool) (l : list A) :
  (∀ x, x ∈ l → f x = false) → List.find f l = None.
Proof.
  induction l as [|x l IH]; intros Hall; [done|]. cbn [List.find].
  rewrite (Hall x) by (by left). apply IH. intros y Hy. apply Hall. by right.
Qed.

(** With no pre-state entry for the account index, the pre-balance is 0. *)
Lemma tokenBalanceChange_unmatched (preTokens : list TokenBalance)
    (postToken : TokenBalance) :
  (∀ e, e ∈ preTokens → accountIndex e ≠ accountIndex postToken) →
  tokenBalanceChange preTokens postToken
  = orZero (uiAmount (uiTokenAmount postToken)).
Proof.
  intros Hnew. unfold tokenBalanceChange.
  rewrite find_none.
  - cbn. apply sub_zero_r.
  - intros e He. apply Z.eqb_neq. by apply Hnew.
Qed.

(** [x || 0] differs from 0 only when [x] is a number, which it then is. *)
Lemma orZero_nonzero (amount : option float) :
  differsFromZero (orZero amount) = true →
  ∃ x, amount = Some x ∧ orZero amount = x.
Proof.
  destruct amount as [x|]; [|by intros [=]]. cbn [orZero].
  destruct ((x =? 0)%float || is_nan x); [by intros [=]|]. eauto.
Qed.

Lemma orZero_number (x : float) :
  (x =? 0)%float = false → is_nan x = false → orZero (Some x) = x.
Proof. intros Hz Hn. cbn [orZero]. by rewrite Hz, Hn. Qed.

(** X14: a token account that did not exist before counts from 0. When no
    pre-state entry carries the account index of any post-state entry (the
    pre-state list is missing, say), every token line a run writes reports
    the whole post amount of a post-state entry of the tracked wallet that
    carries the identifier, as "Bought" exactly when that amount is above 0;
    and when the run returns, every post-state entry of the tracked wallet
    whose amount is a number other than 0 and NaN has a token line for its
    identifier. *)
Theorem processTransactionForTrades_new_accounts `{Platform}
    (connection : Connection) (m : ParsedTransactionMeta)
    (targetWallet : string) (w : World) :
  (∀ p e, p ∈ default [] (postTokenBalances m) →
          e ∈ default [] (preTokenBalances m) →
          accountIndex e ≠ accountIndex p) →
  ∃ lines,
    console (snd (processTransactionForTrades (mkTx (Some m)) connection
                    targetWallet w))
    = console w ++ lines
    ∧ (∀ key action amount,
         (key, action, amount) ∈ omap tokenLineDelta lines →
         ∃ p x,
           p ∈ default [] (postTokenBalances m)
           ∧ owner p = Some targetWallet
           ∧ mint p = key
           ∧ uiAmount (uiTokenAmount p) = Some x
           ∧ amount = abs x
           ∧ action = actionOf x)
    ∧ (fst (processTransactionForTrades (mkTx (Some m)) connection
              targetWallet w) = Returned tt →
       ∀ p x,
         p ∈ default [] (postTokenBalances m) →
         owner p = Some targetWallet →
         uiAmount (uiTokenAmount p) = Some x →
         (x =? 0)%float = false → is_nan x = false →
         mint p ∈ map (fun delta => fst (fst delta))
                      (omap tokenLineDelta lines)).
Proof.
  intros Hnew.
  destruct (processTransactionForTrades _ _ _ _) as [result w'] eqn:Hrun.
  destruct (processTransactionForTrades_lines _ _ _ _ _ _ Hrun)
    as (lines & Hc & _ & Hp & Hr).
  exists (LogProcessingTransaction
          :: nativeLines (solBalanceChange m) ++ lines).
  assert (omap tokenLineDelta
            (LogProcessingTransaction
             :: nativeLines (solBalanceChange m) ++ lines)
          = omap tokenLineDelta lines) as ->.
  { cbn. rewrite omap_app. unfold nativeLines.
    by destruct (differsFromZero _). }
  cbn [fst snd]. split_and!; [exact Hc| |].
  - intros key action amount Hin.
    destruct Hp as [tail Hp].
    assert ((key, action, amount)
            ∈ map reportOf (aggregateTokenChanges targetWallet m)) as Hin'
      by (rewrite Hp; apply elem_of_app; by left).
    apply list_elem_of_fmap in Hin' as ([k tc] & [= -> -> ->] & Hentry).
    apply aggregateTokenChanges_elem in Hentry
      as (p & Hpost & Hown & -> & Hchange & Hnz).
    rewrite (tokenBalanceChange_unmatched _ p) in Hchange
      by (intros e He; by apply Hnew).
    rewrite Hchange in Hnz. destruct (orZero_nonzero _ Hnz) as (x & Hx & Hv).
    exists p, x. cbn [fst snd]. rewrite Hchange, Hv. by split_and!.
  - intros -> p x Hpost Hown Hx Hz Hn. rewrite (Hr eq_refl), map_map.
    change (map (fun entry => (reportOf entry).1.1)
                (aggregateTokenChanges targetWallet m))
      with (map fst (aggregateTokenChanges targetWallet m)).
    rewrite aggregateTokenChanges_setAll, setAll_keys, firstOccurrences_elem.
    apply list_elem_of_fmap. exists p. split; [done|].
    apply list_elem_of_filter. split; [|done].
    unfold recorded. apply andb_true_iff. split.
    + by apply bool_decide_eq_true.
    + rewrite (tokenBalanceChange_unmatched _ p)
        by (intros e He; by apply Hnew).
      rewrite Hx, (orZero_number x Hz Hn). unfold differsFromZero.
      by rewrite Hz.
Qed.

Lemma processTransactionForTrades_new_accounts_witness :
  ∃ lines,
    console (snd (@processTransactionForTrades demoPlatform
                    (mkTx (Some firstPurchase)) emptyStore wallet emptyWorld))
    = console emptyWorld ++ lines
    ∧ (∀ key action amount,
         (key, action, amount) ∈ omap tokenLineDelta lines →
         ∃ p x,
           p ∈ default [] (postTokenBalances firstPurchase)
           ∧ owner p = Some wallet
           ∧ mint p = key
           ∧ uiAmount (uiTokenAmount p) = Some x
           ∧ amount = abs x
           ∧ action = actionOf x)
    ∧ (fst (@processTransactionForTrades demoPlatform
              (mkTx (Some firstPurchase)) emptyStore wallet emptyWorld)
       = Returned tt →
       ∀ p x,
         p ∈ default [] (postTokenBalances firstPurchase) →
         owner p = Some wallet →
         uiAmount (uiTokenAmount p) = Some x →
         (x =? 0)%float = false → is_nan x = false →
         mint p ∈ map (fun delta => fst (fst delta))
                      (omap tokenLineDelta lines)).
Proof.
  apply (@processTransactionForTrades_new_accounts demoPlatform emptyStore
           firstPurchase wallet emptyWorld).
  intros p e _ He. cbn in He. by apply elem_of_nil in He.
Defined.

(* ================================================================== *)
(** * More on the processor *)

Section ProcessorCost.
Context `{Platform}.
Variable connection : Connection.
Implicit Types w : World.

(** What the log loop does to the world besides writing. *)
Lemma logTokenChanges_world (entries : list (string * TokenChange)) w result w' :
  logTokenChanges connection entries w = (result, w') →
  accountFetches w ≤ accountFetches w' ≤ accountFetches w + 2 * length entries
  ∧ transactionFetches w' = transactionFetches w
  ∧ tokenMetadataCache w ⊆ tokenMetadataCache w'
  ∧ (∀ key, key ∉ map fst entries →
       tokenMetadataCache w' !! key = tokenMetadataCache w !! key).
Proof.
  revert w. induction entries as [|[mintKey tc] rest IH]; intros w Hrun.
  { injection Hrun as <- <-. cbn. split_and!; [lia | lia | done..]. }
  cbn [logTokenChanges] in Hrun. unfold mbind at 1, Task_bind at 1 in Hrun.
  destruct (fetch_world connection mintKey w)
    as (md & cache' & k & errors & Hf & Hk & _ & Hcache).
  rewrite Hf in Hrun. clear Hf.
  set (w1 := mkWorld cache' (console w ++ errors) (k + accountFetches w)
                     (transactionFetches w)) in *.
  assert (tokenMetadataCache w ⊆ cache'
          ∧ ∀ key, key ≠ mintKey → cache' !! key = tokenMetadataCache w !! key)
    as [Hsub Hother].
  { destruct Hcache as [->|[Hc ->]]; [done|].
    split; [by apply insert_subseteq|].
    intros key Hne. by rewrite lookup_insert_ne. }
  unfold mbind at 1, Task_bind at 1, lift, toFixed in Hrun.
  destruct (decimals md <=? 100)%N.
  - unfold mbind at 1, Task_bind at 1, consoleWrite in Hrun.
    destruct (IH _ Hrun) as (Hfetch & Htx & Hsub' & Hother').
    cbn [accountFetches transactionFetches tokenMetadataCache w1] in *.
    rewrite length_cons. split_and!; [lia | lia | done | by etrans |].
    intros key Hkey. cbn [map fst] in Hkey.
    apply not_elem_of_cons in Hkey as [Hne Hkey].
    rewrite Hother' by done. by apply Hother.
  - injection Hrun as <- <-.
    cbn [accountFetches transactionFetches tokenMetadataCache w1].
    rewrite length_cons. split_and!; [lia | lia | done | done |].
    intros key Hkey. cbn [map fst] in Hkey.
    apply not_elem_of_cons in Hkey as [Hne Hkey]. by apply Hother.
Qed.

(** When the log loop throws, it is the RangeError of [toFixed]: an entry is
    left unreported, and the loop has written no blank line. *)
Lemma logTokenChanges_thrown (entries : list (string * TokenChange)) w e w' :
  logTokenChanges connection entries w = (Thrown e, w') →
  e = RangeError
  ∧ ∃ lines,
      console w' = console w ++ lines
      ∧ (LogBlank ∉ lines)
      ∧ length (omap tokenLineDelta lines) < length entries.
Proof.
  revert w. induction entries as [|[mintKey tc] rest IH]; intros w Hrun.
  { discriminate Hrun. }
  cbn [logTokenChanges] in Hrun. unfold mbind at 1, Task_bind at 1 in Hrun.
  destruct (fetch_world connection mintKey w)
    as (md & cache' & k & errors & Hf & _ & He & _).
  rewrite Hf in Hrun. clear Hf.
  assert ((LogBlank ∉ errors) ∧ omap tokenLineDelta errors = []) as [Hb Ht].
  { destruct He as [->|[e' ->]]; split; try done.
    - by intros ?%elem_of_nil.
    - by intros [=]%list_elem_of_singleton. }
  unfold mbind at 1, Task_bind at 1, lift, toFixed in Hrun.
  destruct (decimals md <=? 100)%N.
  - unfold mbind at 1, Task_bind at 1, consoleWrite in Hrun.
    destruct (IH _ Hrun) as (-> & lines & Hc & Hb' & Hlen).
    cbn [console] in Hc. split; [done|].
    exists (errors ++ tokenLine md (mintKey, tc) :: lines). split_and!.
    + rewrite Hc. by rewrite <- !app_assoc.
    + rewrite elem_of_app, elem_of_cons. intros [?|[[=]|?]]; done.
    + rewrite omap_app, Ht. cbn. lia.
  - injection Hrun as <- <-. split; [done|]. exists errors. cbn [console].
    split_and!; [done.. |]. rewrite Ht. cbn. lia.
Qed.

End ProcessorCost.

(** X15: the only error the balance-change processor throws is the
    RangeError of [toFixed], met when the precision resolved for an asset is
    above 100; then at least one changed asset has no line and the closing
    blank line is not written. *)
Theorem processTransactionForTrades_throws_only_RangeError `{Platform}
    (connection : Connection) (tx : ParsedTransactionWithMeta)
    (targetWallet : string) (w : World) (e : JsError) :
  fst (processTransactionForTrades tx connection targetWallet w) = Thrown e →
  e = RangeError
  ∧ ∃ m lines,
      meta tx = Some m
      ∧ console (snd (processTransactionForTrades tx connection targetWallet w))
        = console w ++ lines
      ∧ (LogBlank ∉ lines)
      ∧ length (omap tokenLineDelta lines)
        < length (aggregateTokenChanges targetWallet m).
Proof.
  destruct tx as [[m|]]; [|discriminate].
  destruct (processTransactionForTrades _ _ _ _) as [result w'] eqn:Hrun.
  cbn [fst snd]. intros ->.
  unfold processTransactionForTrades in Hrun. cbn [meta] in Hrun.
  unfold mbind at 1, Task_bind at 1, consoleWrite in Hrun.
  unfold mbind at 1, Task_bind at 1 in Hrun. rewrite logSolChange_run in Hrun.
  unfold mbind at 1, Task_bind at 1 in Hrun.
  destruct (logTokenChanges connection _ _) as [[[]|e'] w2] eqn:Hloop;
    [discriminate|].
  injection Hrun as -> ->.
  destruct (logTokenChanges_thrown _ _ _ _ _ Hloop)
    as (-> & lines & Hc & Hb & Hlen).
  cbn [console] in Hc. split; [done|].
  exists m, (LogProcessingTransaction
             :: nativeLines (solBalanceChange m) ++ lines).
  split_and!; [done | by rewrite Hc, <- !app_assoc | |].
  - rewrite elem_of_cons, elem_of_app. unfold nativeLines.
    intros [[=]|[Hin|Hin]]; [|done].
    destruct (differsFromZero _);
      [by apply list_elem_of_singleton in Hin | by apply elem_of_nil in Hin].
  - cbn. rewrite omap_app. unfold nativeLines.
    by destruct (differsFromZero _).
Qed.

Lemma processTransactionForTrades_throws_only_RangeError_witness :
  RangeError = RangeError
  ∧ ∃ m lines,
      meta (mkTx (Some twoAccounts)) = Some m
      ∧ console (snd (@processTransactionForTrades demoPlatform
                        (mkTx (Some twoAccounts)) emptyStore wallet
                        oddPrecisionWorld))
        = console oddPrecisionWorld ++ lines
      ∧ (LogBlank ∉ lines)
      ∧ length (omap tokenLineDelta lines)
        < length (aggregateTokenChanges wallet m).
Proof.
  apply (@processTransactionForTrades_throws_only_RangeError demoPlatform
           emptyStore (mkTx (Some twoAccounts)) wallet oddPrecisionWorld
           RangeError).
  reflexivity.
Defined.

Lemma firstOccurrences_length (l : list string) :
  length (firstOccurrences l) ≤ length l.
Proof.
  induction l as [|x l IH]; [done|]. cbn [firstOccurrences length].
  pose proof (length_filter (fun k' : string => k' ≠ x) (firstOccurrences l)).
  lia.
Qed.

Lemma aggregateTokenChanges_length (targetWallet : string)
    (m : ParsedTransactionMeta) :
  length (aggregateTokenChanges targetWallet m)
  ≤ length (default [] (postTokenBalances m)).
Proof.
  rewrite <- (length_map fst), aggregateTokenChanges_setAll, setAll_keys.
  etrans; [apply firstOccurrences_length|]. rewrite length_map.
  apply length_filter.
Qed.

Section ProcessorWorld.
Context `{Platform}.
Variable connection : Connection.
Implicit Types w : World.

(** What a run on a transaction with its balance-change section does to the
    world besides writing. *)
Lemma processTransactionForTrades_world (m : ParsedTransactionMeta)
    (targetWallet : string) w result w' :
  processTransactionForTrades (mkTx (Some m)) connection targetWallet w
  = (result, w') →
  accountFetches w ≤ accountFetches w'
    ≤ accountFetches w + 2 * length (aggregateTokenChanges targetWallet m)
  ∧ transactionFetches w' = transactionFetches w
  ∧ tokenMetadataCache w ⊆ tokenMetadataCache w'
  ∧ (∀ key, key ∉ map fst (aggregateTokenChanges targetWallet m) →
       tokenMetadataCache w' !! key = tokenMetadataCache w !! key).
Proof.
  unfold processTransactionForTrades. cbn [meta].
  unfold mbind at 1, Task_bind at 1, consoleWrite.
  unfold mbind at 1, Task_bind at 1. rewrite logSolChange_run.
  unfold mbind at 1, Task_bind at 1.
  destruct (logTokenChanges connection _ _) as [[[]|e] w2] eqn:Hloop;
    intros [= <- <-];
    apply logTokenChanges_world in Hloop; exact Hloop.
Qed.

End ProcessorWorld.

(** X16: the transaction processor does not catch a rejected transaction
    fetch: it throws the same error, having counted the fetch and written
    nothing. *)
Theorem processTransaction_rejection_propagates `{Platform}
    (connection : Connection) (signature targetWallet : string) (w : World)
    (e : JsError) :
  getParsedTransaction connection (transactionFetches w) signature = Thrown e →
  processTransaction signature connection targetWallet w
  = (Thrown e,
     mkWorld (tokenMetadataCache w) (console w) (accountFetches w)
             (S (transactionFetches w))).
Proof.
  intros Hrejected.
  unfold processTransaction, awaitGetParsedTransaction, mbind, Task_bind.
  by rewrite Hrejected.
Qed.

Lemma processTransaction_rejection_propagates_witness :
  @processTransaction demoPlatform "sig0" failingStore wallet emptyWorld
  = (Thrown (RpcError 429), mkWorld ∅ [] 0 1).
Proof.
  apply (@processTransaction_rejection_propagates demoPlatform failingStore
           "sig0" wallet emptyWorld (RpcError 429)).
  reflexivity.
Defined.

(** X17: processing a signature asks for the transaction exactly once and
    asks the account store at most twice per post-state token entry of the
    transaction; it asks the account store nothing when the transaction is not
    found, is rejected, or has no balance-change section. *)
Theorem processTransaction_cost `{Platform}
    (connection : Connection) (signature targetWallet : string) (w : World) :
  transactionFetches (snd (processTransaction signature connection
                             targetWallet w))
  = S (transactionFetches w)
  ∧ accountFetches w
    ≤ accountFetches (snd (processTransaction signature connection
                             targetWallet w))
    ≤ accountFetches w + 2 * postEntryCount connection signature w.
Proof.
  unfold processTransaction, awaitGetParsedTransaction, postEntryCount.
  unfold mbind at 1 2 3, Task_bind at 1 2 3.
  destruct (getParsedTransaction connection (transactionFetches w) signature)
    as [[[[m|]]|]|e]; cbn [snd fst]; try (cbn; lia).
  set (w1 := mkWorld _ _ _ _).
  destruct (processTransactionForTrades _ _ _ w1) as [result w'] eqn:Hrun.
  apply processTransactionForTrades_world in Hrun as (Hfetch & Htx & _).
  pose proof (aggregateTokenChanges_length targetWallet m).
  cbn [meta snd]. subst w1. cbn in Hfetch, Htx. lia.
Qed.

(** X18: processing a signature only ever adds to the cache, and an
    identifier gains an entry only if a post-state entry of the fetched
    transaction that the tracked wallet owns carries it. *)
Theorem processTransaction_cache_grows `{Platform}
    (connection : Connection) (signature targetWallet : string) (w : World) :
  tokenMetadataCache w
  ⊆ tokenMetadataCache (snd (processTransaction signature connection
                               targetWallet w))
  ∧ ∀ key,
      tokenMetadataCache (snd (processTransaction signature connection
                                 targetWallet w)) !! key
      ≠ tokenMetadataCache w !! key →
      ∃ tx m p,
        getParsedTransaction connection (transactionFetches w) signature
        = Returned (Some tx)
        ∧ meta tx = Some m
        ∧ p ∈ default [] (postTokenBalances m)
        ∧ owner p = Some targetWallet
        ∧ mint p = key.
Proof.
  unfold processTransaction, awaitGetParsedTransaction.
  unfold mbind at 1 2, Task_bind at 1 2.
  destruct (getParsedTransaction connection (transactionFetches w) signature)
    as [[[[m|]]|]|e]; cbn [snd fst]; try (by split).
  set (w1 := mkWorld _ _ _ _).
  destruct (processTransactionForTrades _ _ _ w1) as [result w'] eqn:Hrun.
  apply processTransactionForTrades_world in Hrun as (_ & _ & Hsub & Hother).
  cbn [snd]. subst w1. cbn [tokenMetadataCache] in Hsub, Hother.
  split; [exact Hsub|]. intros key Hdiff.
  destruct (decide (key ∈ map fst (aggregateTokenChanges targetWallet m)))
    as [Hin|Hout]; [|by rewrite Hother in Hdiff].
  apply list_elem_of_fmap in Hin as ([k tc] & -> & Hentry).
  apply aggregateTokenChanges_elem in Hentry as (p & Hp & Hown & -> & _).
  by exists (mkTx (Some m)), m, p.
Qed.

(* ================================================================== *)
(** * Runs that need no lookup *)

Section QuietRuns.
Context `{Platform}.
Variable connection : Connection.
Implicit Types w : World.

(** With every asset of the map in the cache, with a precision [toFixed]
    accepts, the log loop writes one line per entry from the cached records
    and touches nothing else. *)
Lemma logTokenChanges_warm (entries : list (string * TokenChange)) w :
  (∀ entry, entry ∈ entries →
     ∃ md, tokenMetadataCache w !! fst entry = Some md
           ∧ (decimals md <= 100)%N) →
  logTokenChanges connection entries w
  = (Returned tt,
     mkWorld (tokenMetadataCache w)
             (console w
              ++ map (fun entry =>
                        tokenLine (default UNKNOWN_TOKEN
                                     (tokenMetadataCache w !! fst entry)) entry)
                     entries)
             (accountFetches w) (transactionFetches w)).
Proof.
  revert w. induction entries as [|[mintKey tc] rest IH]; intros w Hwarm.
  { cbn. rewrite app_nil_r. by destruct w. }
  destruct (Hwarm (mintKey, tc)) as (md & Hmd & Hprec); [by left|].
  cbn [fst] in Hmd. cbn [logTokenChanges]. run_bind.
  rewrite (fetch_hit connection mintKey w md Hmd).
  unfold mbind at 1, Task_bind at 1, lift, toFixed.
  apply N.leb_le in Hprec. rewrite Hprec.
  unfold mbind at 1, Task_bind at 1, consoleWrite.
  rewrite IH.
  - cbn [tokenMetadataCache console accountFetches transactionFetches map fst].
    rewrite Hmd. cbn [default]. by rewrite <- app_assoc.
  - intros entry Hentry. cbn [tokenMetadataCache]. apply Hwarm. by right.
Qed.

End QuietRuns.

(** X19: with every changed asset of the tracked wallet in the cache, with a
    precision of at most 100, the processor returns without asking the
    account store: it writes the opening line, the native line if the native
    change is not 0, one token line per changed asset from the cached records,
    in the order of first insertion, and the closing blank line. *)
Theorem processTransactionForTrades_warm_cache `{Platform}
    (connection : Connection) (m : ParsedTransactionMeta)
    (targetWallet : string) (w : World) :
  (∀ entry, entry ∈ aggregateTokenChanges targetWallet m →
     ∃ md, tokenMetadataCache w !! fst entry = Some md
           ∧ (decimals md <= 100)%N) →
  processTransactionForTrades (mkTx (Some m)) connection targetWallet w
  = (Returned tt,
     mkWorld (tokenMetadataCache w)
             (console w
              ++ [LogProcessingTransaction]
              ++ nativeLines (solBalanceChange m)
              ++ map (fun entry =>
                        tokenLine (default UNKNOWN_TOKEN
                                     (tokenMetadataCache w !! fst entry)) entry)
                     (aggregateTokenChanges targetWallet m)
              ++ [LogBlank])
             (accountFetches w) (transactionFetches w)).
Proof.
  intros Hwarm. unfold processTransactionForTrades. cbn [meta].
  unfold mbind at 1, Task_bind at 1, consoleWrite.
  run_bind. rewrite logSolChange_run. run_bind.
  rewrite logTokenChanges_warm by exact Hwarm.
  cbn [tokenMetadataCache console accountFetches transactionFetches].
  by rewrite <- !app_assoc.
Qed.

Lemma processTransactionForTrades_warm_cache_witness :
  @processTransactionForTrades demoPlatform (mkTx (Some twoAccounts))
    emptyStore wallet warmXWorld
  = (Returned tt,
     mkWorld {[ "X" := usdc ]}
             [LogProcessingTransaction;
              LogSol Sold (mkFixedText 0.5 9);
              LogToken (js "USD Coin") "X" Sold (mkFixedText 0.5 6) (js "USDC");
              LogBlank]
             0 0).
Proof.
  apply (@processTransactionForTrades_warm_cache demoPlatform emptyStore
           twoAccounts wallet warmXWorld).
  intros entry ->%list_elem_of_singleton. exists usdc. split; [reflexivity|].
  cbn. lia.
Defined.

(* ================================================================== *)
(** * A transaction that moves nothing *)

Lemma find_own {A : Type} (index : A → Z) (l : list A) (p : A) :
  NoDup (map index l) → p ∈ l →
  List.find (fun e => (index e =? index p)%Z) l = Some p.
Proof.
  induction l as [|x l IH]; intros Hnd Hin; [by apply elem_of_nil in Hin|].
  cbn [map] in Hnd. apply NoDup_cons in Hnd as [Hx Hnd]. cbn [List.find].
  apply elem_of_cons in Hin as [->|Hin]; [by rewrite Z.eqb_refl|].
  destruct (Z.eqb_spec (index x) (index p)) as [Heq|_]; [|by apply IH].
  exfalso. apply Hx. rewrite Heq. apply list_elem_of_fmap. by exists p.
Qed.

Lemma filter_none {A : Type} (P : A → Prop) `{∀ x, Decision (P x)}
    (l : list A) :
  (∀ x, x ∈ l → ¬ P x) → filter P l = [].
Proof.
  induction l as [|x l IH]; intros Hnone; [done|].
  rewrite filter_cons_False by (apply Hnone; by left).
  apply IH. intros y Hy. apply Hnone. by right.
Qed.

Lemma orZero_finite (x : option float) :
  finiteAmount x → is_finite (orZero x) = true.
Proof.
  destruct x as [v|]; [|done]. cbn. intros Hv.
  by destruct ((v =? 0)%float || is_nan v).
Qed.

(** An entry that stands in both snapshots with a finite amount has no
    change. *)
Lemma tokenBalanceChange_same (tokens : list TokenBalance) (p : TokenBalance) :
  NoDup (map accountIndex tokens) → p ∈ tokens →
  finiteAmount (uiAmount (uiTokenAmount p)) →
  differsFromZero (tokenBalanceChange tokens p) = false.
Proof.
  intros Hnd Hin Hfin. unfold tokenBalanceChange, differsFromZero.
  rewrite (find_own accountIndex tokens p Hnd Hin). cbn [mbind option_bind].
  by rewrite sub_diag_finite by (by apply orZero_finite).
Qed.

(** X20: when the post-state token entries are the pre-state ones (distinct
    account indices, finite amounts) and the native balance is the same
    finite number before and after, the processor writes the opening line and
    the closing blank line only, asks the account store nothing, and leaves
    the cache as it was. *)
Theorem processTransactionForTrades_nothing_moved `{Platform}
    (connection : Connection) (m : ParsedTransactionMeta)
    (targetWallet : string) (w : World) :
  postTokenBalances m = preTokenBalances m →
  NoDup (map accountIndex (default [] (preTokenBalances m))) →
  Forall (fun p => finiteAmount (uiAmount (uiTokenAmount p)))
         (default [] (preTokenBalances m)) →
  firstBalance (preBalances m) = firstBalance (postBalances m) →
  is_finite (firstBalance (preBalances m) / 1e9) = true →
  processTransactionForTrades (mkTx (Some m)) connection targetWallet w
  = (Returned tt,
     mkWorld (tokenMetadataCache w)
             (console w ++ [LogProcessingTransaction; LogBlank])
             (accountFetches w) (transactionFetches w)).
Proof.
  intros Hsame Hnd Hfin Hnative Hquot.
  assert (aggregateTokenChanges targetWallet m = []) as Hagg.
  { unfold aggregateTokenChanges. rewrite fold_recordTokenChange, Hsame.
    set (tokens := default [] (preTokenBalances m)) in *.
    assert (filter (fun p => recorded targetWallet tokens p = true) tokens = [])
      as ->; [|done].
    rewrite Forall_forall in Hfin.
    assert (∀ p, p ∈ tokens → recorded targetWallet tokens p = false)
      as Hnone.
    { intros p Hp. unfold recorded.
      rewrite (tokenBalanceChange_same tokens p Hnd Hp (Hfin p Hp)).
      apply andb_false_r. }
    apply filter_none. intros p Hp. by rewrite (Hnone p Hp). }
  assert (nativeLines (solBalanceChange m) = []) as Hnat.
  { unfold nativeLines, solBalanceChange, differsFromZero.
    rewrite <- Hnative. by rewrite sub_diag_finite. }
  unfold processTransactionForTrades. cbn [meta].
  unfold mbind at 1, Task_bind at 1, consoleWrite.
  run_bind. rewrite logSolChange_run, Hnat. run_bind. rewrite Hagg.
  cbn. by rewrite app_nil_r, <- app_assoc.
Qed.

Lemma processTransactionForTrades_nothing_moved_witness :
  @processTransactionForTrades demoPlatform (mkTx (Some nothingMoved))
    emptyStore wallet emptyWorld
  = (Returned tt, mkWorld ∅ [LogProcessingTransaction; LogBlank] 0 0).
Proof.
  apply (@processTransactionForTrades_nothing_moved demoPlatform emptyStore
           nothingMoved wallet emptyWorld); try reflexivity.
  - cbn. repeat constructor; rewrite ?elem_of_cons, ?elem_of_nil;
      intuition discriminate.
  - repeat constructor.
Defined.

(* ================================================================== *)
(** * The price lookup *)

Section PriceFacts.
Variable axiosGet : string → PriceError + option Json.
Variable parseFloat : option Json → PriceError + float.
Variable toNumber : Json → PriceError + float.

Local Abbreviation body := (priceFromResponse axiosGet parseFloat toNumber).

Lemma orNull_Some (x p : float) :
  orNull x = Some p → p = x ∧ (p =? 0)%float = false ∧ is_nan p = false.
Proof.
  unfold orNull.
  destruct (x =? 0)%float eqn:Hz, (is_nan x) eqn:Hn; cbn; try done.
  by intros [= <-].
Qed.

(** What the [try] block returns, when it returns a price. *)
Lemma priceFromResponse_Some (tokenAddress : string) (p : float)
    (lines : list PriceConsoleLine) :
  body tokenAddress = inr (Some p, lines) →
  lines = []
  ∧ (p =? 0)%float = false ∧ is_nan p = false
  ∧ ∃ data pairs first,
      axiosGet ("https://api.dexscreener.com/latest/dex/tokens/" +:+ tokenAddress)
      = inr data
      ∧ member data P_pairs = inr pairs
      ∧ member pairs P_0 = inr first
      ∧ parseFloat (optMember first P_priceUsd) = inr p.
Proof.
  unfold priceFromResponse.
  destruct (axiosGet _) as [e|data]; [done|]. cbn [mbind PriceError_bind].
  destruct (greaterThanZero _ _) as [e|[]]; cbn [mbind PriceError_bind];
    [done| |done].
  destruct (member data P_pairs) as [e|pairs] eqn:Hpairs; [done|].
  cbn [mbind PriceError_bind].
  destruct (member pairs P_0) as [e|first] eqn:Hfirst; [done|].
  cbn [mbind PriceError_bind].
  destruct (parseFloat _) as [e|x] eqn:Hparse; [done|].
  cbn [mbind PriceError_bind]. intros [= Hnull <-].
  apply orNull_Some in Hnull as (-> & Hz & Hn).
  split_and!; [done..|]. by exists data, pairs, first.
Qed.

End PriceFacts.

(** X21: the price lookup never throws, whatever the request, the response
    and the conversions do. A price it returns is the number read from the
    [priceUsd] of the first pair, it is neither 0 nor NaN, and nothing is
    written then; otherwise the lookup returns [null] and has written at most
    one line. *)
Theorem fetchTokenPriceFromDexscreener_result
    (axiosGet : string → PriceError + option Json)
    (parseFloat : option Json → PriceError + float)
    (toNumber : Json → PriceError + float) (tokenAddress : string) :
  ∃ result lines,
    fetchTokenPriceFromDexscreener axiosGet parseFloat toNumber tokenAddress
    = (inr result, lines)
    ∧ length lines ≤ 1
    ∧ ∀ p, result = Some p →
        lines = []
        ∧ (p =? 0)%float = false ∧ is_nan p = false
        ∧ ∃ data pairs first,
            axiosGet ("https://api.dexscreener.com/latest/dex/tokens/"
                      +:+ tokenAddress) = inr data
            ∧ member data P_pairs = inr pairs
            ∧ member pairs P_0 = inr first
            ∧ parseFloat (optMember first P_priceUsd) = inr p.
Proof.
  unfold fetchTokenPriceFromDexscreener.
  destruct (priceFromResponse _ _ _ _) as [e|[result lines]] eqn:Hbody.
  - exists None, [ErrorFetchingTokenPrice e].
    split; [done|]. split; [cbn; lia | done].
  - exists result, lines. split; [done|].
    destruct result as [p|].
    + apply priceFromResponse_Some in Hbody as (-> & Hrest).
      split; [cbn; lia|]. by intros ? [= <-].
    + split; [|done]. revert Hbody. unfold priceFromResponse.
      destruct (axiosGet _) as [e|data]; [done|]. cbn [mbind PriceError_bind].
      destruct (greaterThanZero _ _) as [e|[]]; cbn [mbind PriceError_bind];
        [done| |intros [= <-]; cbn; lia].
      destruct (member data P_pairs) as [e|pairs]; [done|].
      cbn [mbind PriceError_bind].
      destruct (member pairs P_0) as [e|first]; [done|].
      cbn [mbind PriceError_bind].
      destruct (parseFloat _) as [e|x]; [done|].
      cbn [mbind PriceError_bind]. intros [= _ <-]. cbn. lia.
Qed.

(** X22: when the request is rejected, the price lookup returns [null] and
    writes the error line with the rejection; when the response is [null] or
    missing, has no [pairs], has [pairs] set to [null], or has an empty array
    of pairs, it returns [null] and writes the "No pairs found" line with the
    address. *)
Theorem fetchTokenPriceFromDexscreener_no_price
    (axiosGet : string → PriceError + option Json)
    (parseFloat : option Json → PriceError + float)
    (toNumber : Json → PriceError + float) (tokenAddress : string) :
  (∀ e,
     axiosGet ("https://api.dexscreener.com/latest/dex/tokens/" +:+ tokenAddress)
     = inl e →
     fetchTokenPriceFromDexscreener axiosGet parseFloat toNumber tokenAddress
     = (inr None, [ErrorFetchingTokenPrice e]))
  ∧ (∀ data,
       axiosGet ("https://api.dexscreener.com/latest/dex/tokens/" +:+ tokenAddress)
       = inr data →
       optMember data P_pairs = None
       ∨ optMember data P_pairs = Some JNull
       ∨ optMember data P_pairs = Some (JArray []) →
       fetchTokenPriceFromDexscreener axiosGet parseFloat toNumber tokenAddress
       = (inr None, [ErrorNoPairsFound tokenAddress])).
Proof.
  unfold fetchTokenPriceFromDexscreener, priceFromResponse. split.
  - by intros e ->.
  - intros data Hdata [Hp|[Hp|Hp]]; rewrite Hdata; cbn [mbind PriceError_bind];
      rewrite Hp; reflexivity.
Qed.

Lemma fetchTokenPriceFromDexscreener_no_price_witness :
  fetchTokenPriceFromDexscreener
    (fun _ => inl (RequestFailed 500)) (fun _ => inr 1%float)
    (fun _ => inr 0%float) "MintX"
  = (inr None, [ErrorFetchingTokenPrice (RequestFailed 500)])
  ∧ fetchTokenPriceFromDexscreener
      (fun _ => inr (Some (JObject [("pairs", JArray [])])))
      (fun _ => inr 1%float) (fun _ => inr 0%float) "MintX"
    = (inr None, [ErrorNoPairsFound "MintX"]).
Proof.
  split.
  - apply (proj1 (fetchTokenPriceFromDexscreener_no_price
                    (fun _ => inl (RequestFailed 500)) (fun _ => inr 1%float)
                    (fun _ => inr 0%float) "MintX")).
    reflexivity.
  - apply (proj2 (fetchTokenPriceFromDexscreener_no_price
                    (fun _ => inr (Some (JObject [("pairs", JArray [])])))
                    (fun _ => inr 1%float) (fun _ => inr 0%float) "MintX")
             (Some (JObject [("pairs", JArray [])]))).
    + reflexivity.
    + right. right. reflexivity.
Defined.

(* ================================================================== *)
(** * Round trips: from the account to the record *)

Lemma readUInt32LE_u32le_head (after : Buffer) (n : N) :
  (n < 2 ^ 32)%N → readUInt32LE (u32le n ++ after) 0 = Returned n.
Proof. intros Hn. by apply (readUInt32LE_u32le [] after n 0). Qed.

(** The decoder on an account laid out as the format says. *)
Lemma decode_metadataAccount (header nameBytes symbolBytes rest : Buffer) :
  length header = 65%nat →
  (N.of_nat (length nameBytes) < 2 ^ 32)%N →
  (N.of_nat (length symbolBytes) < 2 ^ 32)%N →
  decodeMetaplexMetadata (metadataAccount header nameBytes symbolBytes rest)
  = Returned (mkNameAndSymbol (removeNul (Utf8.decode nameBytes))
                              (removeNul (Utf8.decode symbolBytes))).
Proof.
  intros Hh Hn Hs. unfold metadataAccount.
  rewrite decodeMetaplexMetadata_after_header by done.
  set (L1 := N.of_nat (length nameBytes)) in *.
  set (L2 := N.of_nat (length symbolBytes)) in *.
  rewrite (readUInt32LE_u32le_head _ L1) by done.
  cbn [mbind Outcome_bind].
  rewrite (bufferSlice_exact (u32le L1) nameBytes _ 4 L1) by done.
  rewrite (app_assoc (u32le L1) nameBytes).
  rewrite (readUInt32LE_u32le (u32le L1 ++ nameBytes) _ L2 (4 + L1))
    by (rewrite ?length_app; simpl; unfold L1; lia || done).
  cbn [mbind Outcome_bind mret Outcome_ret].
  rewrite (app_assoc _ (u32le L2)).
  rewrite (bufferSlice_exact ((u32le L1 ++ nameBytes) ++ u32le L2)
             symbolBytes rest (4 + L1 + 4) L2);
    [done | rewrite !length_app; simpl; unfold L1; lia | done].
Qed.

(** X23: round trip of the layout. An account that holds, after any header
    of 65 bytes, an ASCII name and an ASCII symbol without NUL, each padded
    with NULs to its declared length, decodes to that name and that symbol,
    whatever follows the symbol. *)
Theorem decodeMetaplexMetadata_padded_ascii
    (header nameText symbolText rest : Buffer) (namePad symbolPad : nat) :
  length header = 65%nat →
  asciiText nameText → asciiText symbolText →
  (N.of_nat (length nameText + namePad) < 2 ^ 32)%N →
  (N.of_nat (length symbolText + symbolPad) < 2 ^ 32)%N →
  decodeMetaplexMetadata
    (metadataAccount header (nameText ++ repeat x00 namePad)
                     (symbolText ++ repeat x00 symbolPad) rest)
  = Returned (mkNameAndSymbol (map Byte.to_N nameText)
                              (map Byte.to_N symbolText)).
Proof.
  intros Hh Hname Hsymbol Hn Hs.
  rewrite decode_metadataAccount;
    [| done | by rewrite length_app, repeat_length..].
  by rewrite !removeNul_decode_ascii_padded.
Qed.

Lemma decodeMetaplexMetadata_padded_ascii_witness :
  decodeMetaplexMetadata usdCoinAccount
  = Returned (mkNameAndSymbol (js "USD Coin") (js "USDC")).
Proof.
  apply (decodeMetaplexMetadata_padded_ascii sampleHeader
           (String.list_byte_of_string "USD Coin")
           (String.list_byte_of_string "USDC") [x00; x00] 24 6);
    try reflexivity;
    unfold asciiText;
    repeat (apply List.Forall_cons; [cbn; lia|]); apply List.Forall_nil.
Defined.

Lemma trim_id (s : JsString) :
  startsClean s → startsClean (rev s) → trim s = s.
Proof.
  assert (∀ t : JsString, startsClean t → trimStart t = t) as Hid.
  { intros [|c t] Hc; [done|]. cbn in *. by rewrite Hc. }
  intros Hs Hr. unfold trim, trimEnd.
  by rewrite (Hid s Hs), (Hid (rev s) Hr), rev_involutive.
Qed.

(** X24: round trip through the resolver. When the derived address holds a
    well laid out account whose name and symbol are plain ASCII texts padded
    with NULs, and the mint account holds a byte at offset 44, a first call
    for the identifier returns exactly that name, that symbol and that byte
    as the precision, stores the record, and has asked the store twice. *)
Theorem fetchTokenNameAndDecimals_round_trip `{Platform}
    (connection : Connection) (mintAddress : string) (w : World)
    (key : PublicKey) (derived : PublicKey * N)
    (header nameText symbolText rest : Buffer) (namePad symbolPad : nat)
    (mintInfo : AccountInfo) (b : byte) :
  tokenMetadataCache w !! mintAddress = None →
  newPublicKey mintAddress = Returned key →
  findProgramAddress (metadataSeeds key) METAPLEX_METADATA_PROGRAM
    = Returned derived →
  getAccountInfo connection (accountFetches w) (fst derived)
    = Returned (Some (mkAccountInfo
         (metadataAccount header (nameText ++ repeat x00 namePad)
                          (symbolText ++ repeat x00 symbolPad) rest))) →
  length header = 65%nat →
  plainText nameText → plainText symbolText →
  (N.of_nat (length nameText + namePad) < 2 ^ 32)%N →
  (N.of_nat (length symbolText + symbolPad) < 2 ^ 32)%N →
  getAccountInfo connection (S (accountFetches w)) key
    = Returned (Some mintInfo) →
  data mintInfo !! 44%nat = Some b →
  fetchTokenNameAndDecimals connection mintAddress w
  = (Returned (mkTokenMetadata (map Byte.to_N nameText)
                               (map Byte.to_N symbolText) (Byte.to_N b)),
     mkWorld (<[mintAddress := mkTokenMetadata (map Byte.to_N nameText)
                                 (map Byte.to_N symbolText) (Byte.to_N b)]>
                (tokenMetadataCache w))
             (console w) (S (S (accountFetches w))) (transactionFetches w)).
Proof.
  intros Hc K D A Hh (Hna & Hns & Hne) (Hsa & Hss & Hse) Hn Hs A' Hb.
  apply fetch_miss_succeeds; [done|].
  rewrite <- (trim_id (map Byte.to_N nameText) Hns Hne) at 1.
  rewrite <- (trim_id (map Byte.to_N symbolText) Hss Hse) at 1.
  apply (Resolved connection mintAddress (accountFetches w) key derived _
           (mkNameAndSymbol (map Byte.to_N nameText) (map Byte.to_N symbolText))
           (Byte.to_N b) K D A).
  - cbn [data]. rewrite decode_metadataAccount;
      [| done | by rewrite length_app, repeat_length..].
    by rewrite !removeNul_decode_ascii_padded.
  - unfold mintDecimalsAt. rewrite A'.
    change 44%N with (N.of_nat 44). by rewrite readUInt8_lookup, Hb.
Qed.

Lemma fetchTokenNameAndDecimals_round_trip_witness :
  @fetchTokenNameAndDecimals demoPlatform usdCoinStore "MintX" emptyWorld
  = (Returned usdc, mkWorld (<["MintX" := usdc]> ∅) [] 2 0).
Proof.
  apply (@fetchTokenNameAndDecimals_round_trip demoPlatform usdCoinStore
           "MintX" emptyWorld "MintX"
           ("metadatametaqbxxUerdq28cj1RbAWkYQm3ybzjb6a8bt518x1sMintX", 255%N)
           sampleHeader (String.list_byte_of_string "USD Coin")
           (String.list_byte_of_string "USDC") [x00; x00] 24 6
           (mkAccountInfo (repeat x00 44 ++ [x06] ++ repeat x00 37)) x06);
    try reflexivity;
    (split; [|split; reflexivity]); unfold asciiText;
    repeat (apply List.Forall_cons; [cbn; lia|]); apply List.Forall_nil.
Defined.

(* ================================================================== *)
(** * Failed resolutions do not stop a run *)

Section Degradation.
Context `{Platform}.
Variable connection : Connection.
Implicit Types w : World.

Lemma logTokenChanges_all_fail (entries : list (string * TokenChange)) w :
  (∀ entry, entry ∈ entries →
     tokenMetadataCache w !! fst entry = None
     ∧ ∀ n, ResolutionFails connection (fst entry) n) →
  ∃ w' lines,
    logTokenChanges connection entries w = (Returned tt, w')
    ∧ tokenMetadataCache w' = tokenMetadataCache w
    ∧ console w' = console w ++ lines
    ∧ List.filter isTokenLine lines = map (tokenLine UNKNOWN_TOKEN) entries.
Proof.
  revert w. induction entries as [|[mintKey tc] rest IH]; intros w Hfail.
  { exists w, []. by rewrite app_nil_r. }
  destruct (Hfail (mintKey, tc)) as [Hc Hf]; [by left|]. cbn [fst] in Hc, Hf.
  destruct (fetch_miss_fails_world connection mintKey w Hc
              (Hf (accountFetches w)))
    as (k & errors & Hrun & _ & He).
  cbn [logTokenChanges]. run_bind. rewrite Hrun.
  unfold mbind at 1, Task_bind at 1, lift, toFixed.
  change (decimals UNKNOWN_TOKEN <=? 100)%N with true. cbv iota.
  unfold mbind at 1, Task_bind at 1, consoleWrite.
  set (w2 := mkWorld _ _ _ _).
  destruct (IH w2) as (w' & lines & -> & Hcache & Hconsole & Hlines).
  { intros entry Hentry. apply Hfail. by right. }
  exists w', (errors ++ tokenLine UNKNOWN_TOKEN (mintKey, tc) :: lines).
  split_and!; [done | by rewrite Hcache | |].
  - rewrite Hconsole. subst w2. cbn [console]. by rewrite <- !app_assoc.
  - rewrite List.filter_app. cbn [List.filter isTokenLine tokenLine map].
    rewrite Hlines. by destruct He as [->|[e ->]].
Qed.

End Degradation.

(** X25: failed resolutions do not stop a run. When no changed asset of the
    tracked wallet is in the cache and the resolution of each of them fails,
    whenever it is tried, the processor still returns: it writes one token
    line per changed asset, in the order of first insertion, with the name
    "Unknown", the symbol "UNKNOWN" and no decimal places, and leaves the
    cache as it was. *)
Theorem processTransactionForTrades_degrades `{Platform}
    (connection : Connection) (m : ParsedTransactionMeta)
    (targetWallet : string) (w : World) :
  (∀ entry, entry ∈ aggregateTokenChanges targetWallet m →
     tokenMetadataCache w !! fst entry = None
     ∧ ∀ n, ResolutionFails connection (fst entry) n) →
  ∃ w' lines,
    processTransactionForTrades (mkTx (Some m)) connection targetWallet w
    = (Returned tt, w')
    ∧ tokenMetadataCache w' = tokenMetadataCache w
    ∧ console w' = console w ++ lines
    ∧ List.filter isTokenLine lines
      = map (tokenLine UNKNOWN_TOKEN) (aggregateTokenChanges targetWallet m).
Proof.
  intros Hfail. unfold processTransactionForTrades. cbn [meta].
  unfold mbind at 1, Task_bind at 1, consoleWrite.
  run_bind. rewrite logSolChange_run. run_bind.
  set (w1 := mkWorld _ _ _ _).
  destruct (logTokenChanges_all_fail connection
              (aggregateTokenChanges targetWallet m) w1 Hfail)
    as (w2 & lines & -> & Hcache & Hconsole & Hlines).
  eexists _, (LogProcessingTransaction
              :: nativeLines (solBalanceChange m) ++ lines ++ [LogBlank]).
  split_and!; [reflexivity | exact Hcache | |].
  - cbn [console]. rewrite Hconsole. subst w1. cbn [console].
    by rewrite <- !app_assoc.
  - cbn [List.filter isTokenLine]. rewrite !List.filter_app, Hlines.
    cbn [List.filter isTokenLine]. rewrite app_nil_r.
    unfold nativeLines. by destruct (differsFromZero _).
Qed.

Lemma processTransactionForTrades_degrades_witness :
  ∃ w' lines,
    @processTransactionForTrades demoPlatform (mkTx (Some twoAccounts))
      emptyStore wallet emptyWorld
    = (Returned tt, w')
    ∧ tokenMetadataCache w' = tokenMetadataCache emptyWorld
    ∧ console w' = console emptyWorld ++ lines
    ∧ List.filter isTokenLine lines
      = map (tokenLine UNKNOWN_TOKEN) (aggregateTokenChanges wallet twoAccounts).
Proof.
  apply (@processTransactionForTrades_degrades demoPlatform emptyStore
           twoAccounts wallet emptyWorld).
  intros entry ->%list_elem_of_singleton. split; [reflexivity|].
  intros n.
  by eapply (@MetadataAbsent demoPlatform emptyStore "X" n).
Defined.
